(** * Order / decision-log reconciliation: a shallow embedding

    Embedded sources:
    - [tools/log_reconcile/validate_orders_vs_decisions.py]
      (ledger loader, decision extractor, matcher, validator);
    - [tools/log_reconcile/add_timezh.py] (epoch normalisation).

    Modelling conventions.
    - A Python [int] is a [Z].
    - A Python [float] is an exact rational [Q]; binary64 rounding, the
      infinities and NaN are not modelled.
    - A [datetime] is a time-zone-aware instant, counted in microseconds
      since 1970-01-01T00:00:00 UTC (the resolution of [datetime]); naive
      datetimes, on which the source's comparisons against ledger times
      raise, are outside the model.
    - A caught exception is [None] in [option]; the code that catches it is
      written as a [match]. *)

From Stdlib Require Import ZArith QArith Qabs Qminmax Lia List Bool String Ascii.
From Stdlib Require Import DecimalString Qround.
From stdpp Require Import base option list gmap strings.

Local Open Scope string_scope.
Local Open Scope list_scope.
Local Open Scope Z_scope.

#[local] Set Warnings "-register-all".

(* ===================================================================== *)
(** ** Instants *)
(* ===================================================================== *)

Module Instants.

(** Microseconds since the Unix epoch, UTC. *)
Definition instant : Type := Z.


Definition of_seconds (s : Z) : instant := s * 1000000.

(** [timedelta(seconds=n)] in microseconds. *)
Definition timedelta_seconds (n : Z) : Z := n * 1000000.

(** [abs((a - b).total_seconds())], kept in microseconds. *)
Definition abs_diff (a b : instant) : Z := Z.abs (a - b).

(** Range accepted by [datetime.utcfromtimestamp] (years 1 to 9999),
    expressed in milliseconds. *)
Definition utc_min_ms : Z := -62135596800000.
Definition utc_max_ms : Z := 253402300799999.

End Instants.

Import Instants.

(* ===================================================================== *)
(** ** add_timezh.py: [_epoch_to_seconds] *)
(* ===================================================================== *)

(** [len(str(n))] for a non-negative [n]: the number of decimal digits.
    The fuel [S (log2 n)] is never exhausted, see [str_len_bounds]. *)
Fixpoint digits_fuel (fuel : nat) (n : Z) : nat :=
  match fuel with
  | O => 1%nat
  | S f => if n <? 10 then 1%nat else S (digits_fuel f (n / 10))
  end.

Definition str_len (n : Z) : nat := digits_fuel (S (Z.to_nat (Z.log2 n))) n.

Definition _epoch_to_seconds (epoch_value : Z) : Z :=
  let n := Z.abs epoch_value in
  let digits := str_len n in
  if (19 <=? digits)%nat then epoch_value / 1000000000
  else if (16 <=? digits)%nat then epoch_value / 1000000
  else if (13 <=? digits)%nat then epoch_value / 1000
  else epoch_value.

(* ===================================================================== *)
(** ** validate_orders_vs_decisions.py: [_to_dt_ms] *)
(* ===================================================================== *)

(** [utcfromtimestamp(ms / 1000.0)]: the argument is always read as
    milliseconds (the float quotient is taken to be exact).  Outside the
    representable years the call raises and the [except] branch answers
    with the current time [now]. *)
Definition _to_dt_ms (now : instant) (ms : Z) : instant :=
  if (utc_min_ms <=? ms) && (ms <=? utc_max_ms) then ms * 1000 else now.

(* ===================================================================== *)
(** ** Loosely-typed input: JSON values and the Python builtins *)
(* ===================================================================== *)

(** What [json.load] returns.  An object is the item list of the resulting
    [dict], in insertion order, keys pairwise distinct. *)
Inductive json : Type :=
| JNull
| JBool (b : bool)
| JInt (z : Z)
| JFloat (q : Q)
| JStr (s : string)
| JArr (l : list json)
| JObj (kvs : list (string * json)).

(** Builtins of the Python runtime that the scripts call on text, taken as
    parameters of the development rather than re-implemented. *)
Record Builtins : Type := {
  (** [int(s)] on a [str]; [None] is [ValueError]. *)
  int_of_str : string -> option Z;
  (** [float(s)] on a [str]; [None] is [ValueError]. *)
  float_of_str : string -> option Q;
  (** [str(v)] on a number or a container. *)
  repr_value : json -> string;
  (** the characters of a [str], as iteration yields them. *)
  str_chars : string -> list string;
  (** [datetime.fromisoformat]; [None] is [ValueError]. *)
  fromisoformat : string -> option instant;
  (** [EXEC_LOG_RE.search(line)]: groups 1 and 2 of the first match. *)
  exec_log_search : string -> option (string * string);
  (** [datetime.now(timezone.utc)]. *)
  utc_now : instant
}.

(** Truth value of a JSON value ([bool(v)], [if v], [v or d]). *)
Definition truthy (v : json) : bool :=
  match v with
  | JNull => false
  | JBool b => b
  | JInt z => negb (z =? 0)
  | JFloat q => negb (Qeq_bool q 0)
  | JStr s => negb (bool_decide (s = EmptyString))
  | JArr l => negb (bool_decide (length l = 0%nat))
  | JObj kvs => negb (bool_decide (length kvs = 0%nat))
  end.

Definition is_none (v : json) : bool :=
  match v with JNull => true | _ => false end.

(** [v or d]. *)
Definition py_or (v d : json) : json := if truthy v then v else d.

(** Truth value of an [Optional[str]]. *)
Definition truthy_str (s : option string) : bool :=
  match s with
  | Some s => negb (bool_decide (s = EmptyString))
  | None => false
  end.

(** [d.get(k)] on a dict: the value, or [None] when the key is missing. *)
Fixpoint dict_get (kvs : list (string * json)) (k : string) : json :=
  match kvs with
  | [] => JNull
  | (k', v) :: rest => if bool_decide (k' = k) then v else dict_get rest k
  end.

(** [k in d]. *)
Definition dict_mem (kvs : list (string * json)) (k : string) : bool :=
  existsb (fun kv => bool_decide (kv.1 = k)) kvs.

(** [v.get(k)] on any value: only a dict has the method, everything else
    raises [AttributeError]. *)
Definition py_get (v : json) (k : string) : option json :=
  match v with
  | JObj kvs => Some (dict_get kvs k)
  | _ => None
  end.

(** [s.replace('Z', '+00:00')]. *)
Fixpoint replace_Z (s : string) : string :=
  match s with
  | EmptyString => EmptyString
  | String c rest =>
      if bool_decide (c = "Z"%char)
      then String.append "+00:00" (replace_Z rest)
      else String c (replace_Z rest)
  end.

Section Coercions.

Variable py : Builtins.

(** [int(v)]; a float is truncated toward zero. *)
Definition py_int (v : json) : option Z :=
  match v with
  | JNull => None
  | JBool b => Some (if b then 1 else 0)
  | JInt z => Some z
  | JFloat q => Some (Z.quot (Qnum q) (Z.pos (Qden q)))
  | JStr s => int_of_str py s
  | JArr _ | JObj _ => None
  end.

(** [float(v)]; the [OverflowError] of an integer beyond the float range
    is not modelled. *)
Definition py_float (v : json) : option Q :=
  match v with
  | JNull => None
  | JBool b => Some (if b then 1%Q else 0%Q)
  | JInt z => Some (inject_Z z)
  | JFloat q => Some q
  | JStr s => float_of_str py s
  | JArr _ | JObj _ => None
  end.

(** [str(v)]: never raises. *)
Definition py_str (v : json) : string :=
  match v with
  | JNull => "None"
  | JBool true => "True"
  | JBool false => "False"
  | JStr s => s
  | _ => repr_value py v
  end.

(** [for x in v]: a list yields its elements, a dict its keys, a [str]
    its characters; anything else raises [TypeError]. *)
Definition py_iter (v : json) : option (list json) :=
  match v with
  | JArr l => Some l
  | JObj kvs => Some (map (fun kv => JStr kv.1) kvs)
  | JStr s => Some (map JStr (str_chars py s))
  | _ => None
  end.

(** [fromisoformat(s.replace('Z', '+00:00'))] when [v] is a [str]. *)
Definition parse_iso_field (v : json) : option instant :=
  match v with
  | JStr s => fromisoformat py (replace_Z s)
  | _ => None
  end.

End Coercions.

(* ===================================================================== *)
(** ** The two dataclasses *)
(* ===================================================================== *)

Module DecisionOp.
Record t : Type := mk {
  ts : instant;
  symbol : string;
  action : string;
  price : option Q;
  qty : option Q;
  order_id : option Z;
  success : bool
}.
End DecisionOp.

Module OrderRow.
Record t : Type := mk {
  time : instant;
  order_id : Z;
  symbol : string;
  side : string;
  position_side : option string;
  reduce_only : option bool;
  status : string;
  type : string;
  avg_price : option Q;
  executed_qty : option Q
}.
End OrderRow.

(* ===================================================================== *)
(** ** Order ledger loader: [load_orders] *)
(* ===================================================================== *)

Section Loader.

Variable py : Builtins.

(** [str(o.get(k)) if o.get(k) else ''] *)
Definition str_or_empty (v : json) : string :=
  if truthy v then py_str py v else EmptyString.

(** The optional numeric fields: a value that does not convert is [None],
    the record is kept. *)
Definition float_or_none (v : json) : option Q :=
  if is_none v then None else py_float py v.

(** [int(o.get('time')) if o.get('time') is not None
     else int(o.get('updateTime') or 0)] *)
Definition time_ms_of (kvs : list (string * json)) : option Z :=
  if negb (is_none (dict_get kvs "time"))
  then py_int py (dict_get kvs "time")
  else py_int py (py_or (dict_get kvs "updateTime") (JInt 0)).

(** Body of the loop of [load_orders]; [None] is [continue], reached
    either directly (not a dict) or through [except Exception]. *)
Definition load_one (o : json) : option OrderRow.t :=
  match o with
  | JObj kvs =>
      order_id ← py_int py (dict_get kvs "orderId");
      let symbol := py_str py (dict_get kvs "symbol") in
      let side := str_or_empty (dict_get kvs "side") in
      let position_side := dict_get kvs "positionSide" in
      let reduce_only := dict_get kvs "reduceOnly" in
      let status := str_or_empty (dict_get kvs "status") in
      let typ := str_or_empty (dict_get kvs "type") in
      let avg_price := float_or_none (dict_get kvs "avgPrice") in
      let executed_qty := float_or_none (dict_get kvs "executedQty") in
      time_ms ← time_ms_of kvs;
      Some {|
        OrderRow.time := _to_dt_ms (utc_now py) time_ms;
        OrderRow.order_id := order_id;
        OrderRow.symbol := symbol;
        OrderRow.side := side;
        OrderRow.position_side :=
          if truthy position_side then Some (py_str py position_side) else None;
        OrderRow.reduce_only :=
          if is_none reduce_only then None else Some (truthy reduce_only);
        OrderRow.status := status;
        OrderRow.type := typ;
        OrderRow.avg_price := avg_price;
        OrderRow.executed_qty := executed_qty
      |}
  | _ => None
  end.

(** [data] is the parsed JSON array of the ledger file. *)
Fixpoint load_orders (data : list json) : list OrderRow.t :=
  match data with
  | [] => []
  | o :: rest =>
      match load_one o with
      | Some row => row :: load_orders rest
      | None => load_orders rest
      end
  end.

End Loader.

(* ===================================================================== *)
(** ** Matcher *)
(* ===================================================================== *)

Definition action_to_order_filters (action : string)
  : string * option string * option bool :=
  if bool_decide (action = "open_long") then ("BUY", Some "LONG", Some false)
  else if bool_decide (action = "open_short") then ("SELL", Some "SHORT", Some false)
  else if bool_decide (action = "close_long") then ("SELL", Some "LONG", Some true)
  else if bool_decide (action = "close_short") then ("BUY", Some "SHORT", Some true)
  else (EmptyString, None, None).

(** The chain of [continue] tests inside the loop of
    [find_best_order_match]: [true] when [o] is appended to [candidates]. *)
Definition is_candidate (dec : DecisionOp.t) (time_tol_sec : Z)
    (allow_reduce_mismatch : bool) (o : OrderRow.t) : bool :=
  let '(side, pos_side, reduce_only) :=
    action_to_order_filters (DecisionOp.action dec) in
  let window_start := DecisionOp.ts dec - timedelta_seconds time_tol_sec in
  let window_end := DecisionOp.ts dec + timedelta_seconds time_tol_sec in
  if negb (bool_decide (OrderRow.symbol o = DecisionOp.symbol dec)) then false
  else if negb (bool_decide (OrderRow.status o = "FILLED")) then false
  else if negb (bool_decide (OrderRow.side o = side)) then false
  else if (OrderRow.time o <? window_start) || (OrderRow.time o >? window_end)
  then false
  else if truthy_str pos_side && truthy_str (OrderRow.position_side o)
          && negb (bool_decide (OrderRow.position_side o = pos_side))
  then false
  else if bool_decide (reduce_only <> None)
          && bool_decide (OrderRow.reduce_only o <> None)
          && negb (bool_decide (OrderRow.reduce_only o = reduce_only))
          && negb allow_reduce_mismatch
  then false
  else true.

(** [list.sort(key=...)] is stable, and the output of a stable sort is
    determined by the input; it is written here as an insertion sort that
    keeps an earlier element in front of a later one with the same key. *)
Fixpoint insert_by_key {A : Type} (key : A -> Z) (x : A) (l : list A) : list A :=
  match l with
  | [] => [x]
  | y :: rest =>
      if key x <=? key y then x :: y :: rest
      else y :: insert_by_key key x rest
  end.

Fixpoint sort_by_key {A : Type} (key : A -> Z) (l : list A) : list A :=
  match l with
  | [] => []
  | x :: rest => insert_by_key key x (sort_by_key key rest)
  end.

Definition candidates_of (dec : DecisionOp.t) (orders : list OrderRow.t)
    (time_tol_sec : Z) (allow_reduce_mismatch : bool) : list OrderRow.t :=
  List.filter (is_candidate dec time_tol_sec allow_reduce_mismatch) orders.

Definition find_best_order_match (dec : DecisionOp.t) (orders : list OrderRow.t)
    (time_tol_sec : Z) (allow_reduce_mismatch : bool) : option OrderRow.t :=
  let candidates := candidates_of dec orders time_tol_sec allow_reduce_mismatch in
  match candidates with
  | [] => None
  | _ =>
      head (sort_by_key
              (fun x => abs_diff (OrderRow.time x) (DecisionOp.ts dec))
              candidates)
  end.

(** [{o.order_id: o for o in orders}]: a later row replaces an earlier one
    with the same identifier. *)
Definition order_by_id (orders : list OrderRow.t) : gmap Z OrderRow.t :=
  foldl (fun m o => <[OrderRow.order_id o := o]> m) ∅ orders.

(** Steps 1 and 2 of the loop of [main] for one decision: the matched row
    and the [method] string. *)
Definition match_decision (strict : bool) (orders : list OrderRow.t)
    (time_tolerance_sec : Z) (d : DecisionOp.t) : option OrderRow.t * string :=
  let by_id := order_by_id orders in
  let '(o, method) :=
    match DecisionOp.order_id d with
    | Some i =>
        if negb (i =? 0) then
          match by_id !! i with
          | Some row => (Some row, "order_id")
          | None => (None, EmptyString)
          end
        else (None, EmptyString)
    | None => (None, EmptyString)
    end in
  match o with
  | None =>
      if negb strict then
        let o' := find_best_order_match d orders time_tolerance_sec (negb strict) in
        (o', match o' with Some _ => "time_window" | None => EmptyString end)
      else (o, method)
  | Some _ => (o, method)
  end.

(* ===================================================================== *)
(** ** Validator *)
(* ===================================================================== *)

(** The literal [1e-12]. *)
Definition tiny : Q := 1 # 1000000000000.

Definition within_pct (a b : option Q) (tol_pct : Q) : option bool :=
  match a, b with
  | Some a, Some b =>
      if Qeq_bool a 0 && Qeq_bool b 0 then Some true
      else if Qeq_bool a 0 || Qeq_bool b 0 then Some false
      else Some (Qle_bool
                   (Qabs (a - b) / Qmax tiny (Qabs b))
                   (tol_pct / 100))
  | _, _ => None
  end.

(** [o.position_side or ''] *)
Definition or_empty (s : option string) : string :=
  match s with
  | Some s => s
  | None => EmptyString
  end.

(** The strict-mode block of [main] that may overwrite [qty_ok]. *)
Definition strict_enforce (d : DecisionOp.t) (o : OrderRow.t)
    (qty_ok : option bool) : option bool :=
  let '(exp_side, exp_pos_side, exp_reduce) :=
    action_to_order_filters (DecisionOp.action d) in
  let qty_ok :=
    if truthy_str exp_pos_side
       && negb (bool_decide (Some (or_empty (OrderRow.position_side o)) = exp_pos_side))
    then Some false else qty_ok in
  if bool_decide (exp_reduce <> None)
     && bool_decide (OrderRow.reduce_only o <> None)
     && negb (bool_decide (OrderRow.reduce_only o = exp_reduce))
  then Some false else qty_ok.

(** [x is True] *)
Definition is_True (x : option bool) : bool :=
  match x with Some true => true | _ => false end.

(** [x in (True, None)] *)
Definition in_True_None (x : option bool) : bool :=
  match x with Some true | None => true | Some false => false end.

(** Verdicts of a matched decision: [(price_ok, qty_ok, passed)]. *)
Definition validate (strict : bool) (price_tol_pct qty_tol_pct : Q)
    (d : DecisionOp.t) (o : OrderRow.t) : option bool * option bool * bool :=
  let price_ok := within_pct (DecisionOp.price d) (OrderRow.avg_price o) price_tol_pct in
  let qty_ok := within_pct (DecisionOp.qty d) (OrderRow.executed_qty o) qty_tol_pct in
  let qty_ok := if strict then strict_enforce d o qty_ok else qty_ok in
  let passed :=
    if strict then is_True price_ok && is_True qty_ok
    else in_True_None price_ok && in_True_None qty_ok in
  (price_ok, qty_ok, passed).

(* ===================================================================== *)
(** ** Decision event extractor: [parse_decision_ops] *)
(* ===================================================================== *)

(** One [decision_*.json] file: what [safe_load_json] returns for it and
    its modification time. *)
Record doc_file : Type := {
  doc_json : option json;
  doc_mtime : instant
}.

Definition known_action (a : string) : bool :=
  bool_decide (a = "open_long") || bool_decide (a = "open_short")
  || bool_decide (a = "close_long") || bool_decide (a = "close_short").

(** The test of the fallback pass: some event collected so far has the
    same symbol and action and lies less than 600 s from [ts_base]. *)
Definition already_reported (ts_base : instant) (symbol action : string)
    (ops : list DecisionOp.t) : bool :=
  existsb (fun o =>
             bool_decide (DecisionOp.symbol o = symbol)
             && bool_decide (DecisionOp.action o = action)
             && (abs_diff (DecisionOp.ts o) ts_base <? 600 * 1000000))
          ops.

Definition fallback_event (ts_base : instant) (symbol action : string)
  : DecisionOp.t :=
  DecisionOp.mk ts_base symbol action None None None true.

Section Extractor.

Variable py : Builtins.

(** [ts_base]: the document's own timestamp, else the file's mtime. *)
Definition base_timestamp (data : json) (mtime : instant) : instant :=
  match py_get data "timestamp" ≫= parse_iso_field py with
  | Some t => t
  | None => mtime
  end.

(** Body of the loop over [decisions]; [None] when nothing is appended
    ([continue], a caught exception, or [success] false). *)
Definition decision_entry (ts_base : instant) (d : json) : option DecisionOp.t :=
  match d with
  | JObj kvs =>
      match dict_get kvs "action" with
      | JStr action =>
          if negb (known_action action) then None
          else
            match dict_get kvs "symbol" with
            | JStr symbol =>
                let price := float_or_none py (dict_get kvs "price") in
                let qty := float_or_none py (dict_get kvs "quantity") in
                let order_id :=
                  if is_none (dict_get kvs "order_id") then None
                  else py_int py (dict_get kvs "order_id") in
                let ts_dec :=
                  match parse_iso_field py (dict_get kvs "timestamp") with
                  | Some t => t
                  | None => ts_base
                  end in
                let success :=
                  if dict_mem kvs "success"
                  then truthy (dict_get kvs "success") else false in
                if success
                then Some (DecisionOp.mk ts_dec symbol action price qty order_id true)
                else None
            | _ => None
            end
      | _ => None
      end
  | _ => None
  end.

(** Body of the loop over [execution_log]. *)
Definition fallback_line (ts_base : instant) (ops : list DecisionOp.t)
    (line : json) : list DecisionOp.t :=
  match line with
  | JStr s =>
      match exec_log_search py s with
      | Some (symbol, action) =>
          if already_reported ts_base symbol action ops then ops
          else (ops ++ [fallback_event ts_base symbol action])%list
      | None => ops
      end
  | _ => ops
  end.

(** One iteration of the loop over files.  The outer [None] is an
    exception that nothing catches ([.get] on a top-level value that is not
    a dict, iteration over a number). *)
Definition parse_document (ops : list DecisionOp.t) (f : doc_file)
  : option (list DecisionOp.t) :=
  match doc_json f with
  | None => Some ops
  | Some data =>
      if negb (truthy data) then Some ops
      else
        let ts_base := base_timestamp data (doc_mtime f) in
        decisions ← py_get data "decisions";
        ds ← py_iter py (py_or decisions (JArr []));
        let ops := (ops ++ omap (decision_entry ts_base) ds)%list in
        execution_log ← py_get data "execution_log";
        lines ← py_iter py (py_or execution_log (JArr []));
        Some (foldl (fallback_line ts_base) ops lines)
  end.

(** [files] are the documents in the order of [sorted(files)]. *)
Definition parse_decision_ops (files : list doc_file) : option (list DecisionOp.t) :=
  foldl (fun acc f => ops ← acc; parse_document ops f) (Some []) files.

End Extractor.

(* ===================================================================== *)
(** ** add_timezh.py: [_to_int], [format_with_offset], [add_timezh] *)
(* ===================================================================== *)

(** Library calls of the decoration script, taken as parameters. *)
Record TimeRuntime : Type := {
  (** [s.strip()]. *)
  str_strip : string -> string;
  (** [datetime.fromtimestamp(seconds, tz).strftime("%Y-%m-%d %H:%M:%S ")]
      for the zone [minutes] east of UTC; [None] when [fromtimestamp]
      raises. *)
  strftime_local : Z -> Z -> option string
}.

(** [obj[k] = v] on a dict: an existing key keeps its place and takes the
    new value, a new key goes to the end. *)
Fixpoint dict_set (kvs : list (string * json)) (k : string) (v : json)
  : list (string * json) :=
  match kvs with
  | [] => [(k, v)]
  | (k', v') :: rest =>
      if bool_decide (k' = k) then (k', v) :: rest
      else (k', v') :: dict_set rest k v
  end.

(** [round(x)] on a float: to the nearest integer, a tie to the even one. *)
Definition py_round (x : Q) : Z :=
  let f := Qfloor x in
  match Qcompare (x - inject_Z f) (1 # 2) with
  | Lt => f
  | Gt => f + 1
  | Eq => if Z.even f then f else f + 1
  end.

(** [f"{n:02d}"]. *)
Definition fmt_02d (n : Z) : string :=
  let s := NilZero.string_of_int (Z.to_int n) in
  if (String.length s <? 2)%nat then String.append "0" s else s.

(** The [UTC+HH:MM] label of [format_with_offset]. *)
Definition offset_label (total_minutes : Z) : string :=
  let sign := if 0 <=? total_minutes then "+" else "-" in
  let minutes := Z.abs total_minutes in
  let hh := minutes / 60 in
  let mm := minutes mod 60 in
  String.append "UTC"
    (String.append sign
       (String.append (fmt_02d hh) (String.append ":" (fmt_02d mm)))).

Section Timezh.

Variable py : Builtins.
Variable rt : TimeRuntime.

(** [_to_int]: [None] is the [ValueError] or [TypeError] it raises.  A
    [bool] is an [int] for [isinstance]. *)
Definition _to_int (value : json) : option Z :=
  match value with
  | JBool b => Some (if b then 1 else 0)
  | JInt z => Some z
  | JFloat q => Some (Z.quot (Qnum q) (Z.pos (Qden q)))
  | JStr s =>
      let s := str_strip rt s in
      if bool_decide (s = EmptyString) then None else int_of_str py s
  | JNull | JArr _ | JObj _ => None
  end.

(** [format_with_offset]; [None] when [timezone(...)] rejects an offset
    of 24 hours or more, or [fromtimestamp] raises. *)
Definition format_with_offset (seconds : Z) (offset_hours : Q) : option string :=
  let total_minutes := py_round (offset_hours * 60) in
  if (-1440 <? total_minutes) && (total_minutes <? 1440) then
    date ← strftime_local rt seconds total_minutes;
    Some (String.append date (offset_label total_minutes))
  else None.

(** The body of the loop of [add_timezh] on one record: the updated
    record, or [None] when the record is left alone ([continue], or the
    [except] branch). *)
Definition decorate (offset_hours : Q) (obj : json) : option json :=
  match obj with
  | JObj kvs =>
      if dict_mem kvs "time" then
        raw ← _to_int (dict_get kvs "time");
        timezh ← format_with_offset (_epoch_to_seconds raw) offset_hours;
        Some (JObj (dict_set kvs "timezh" (JStr timezh)))
      else None
  | _ => None
  end.

(** [add_timezh]: the records after the in-place updates, and the count
    it returns. *)
Definition add_timezh_step (offset_hours : Q) (st : list json * Z) (obj : json)
  : list json * Z :=
  match decorate offset_hours obj with
  | Some obj' => (st.1 ++ [obj'], st.2 + 1)
  | None => (st.1 ++ [obj], st.2)
  end.

Definition add_timezh (records : list json) (offset_hours : Q) : list json * Z :=
  foldl (add_timezh_step offset_hours) ([], 0) records.

End Timezh.

(* ===================================================================== *)
(** ** [main]: time filter, report rows and counters *)
(* ===================================================================== *)

(** [_parse_iso] applied to [--from-iso] / [--to-iso]. *)
Definition _parse_iso (py : Builtins) (s : option string) : option instant :=
  match s with
  | None => None
  | Some s =>
      if bool_decide (s = EmptyString) then None
      else fromisoformat py (replace_Z s)
  end.

(** The optional time filter.  A [datetime] is always true, so
    [t_from and d.ts < t_from] tests the bound only when it is given. *)
Definition skipped_by_filter (t_from t_to : option instant) (d : DecisionOp.t) : bool :=
  match t_from with
  | Some f => if DecisionOp.ts d <? f then true
              else match t_to with Some t => DecisionOp.ts d >? t | None => false end
  | None => match t_to with Some t => DecisionOp.ts d >? t | None => false end
  end.

Definition filter_decisions (t_from t_to : option instant)
    (decisions : list DecisionOp.t) : list DecisionOp.t :=
  match t_from, t_to with
  | None, None => decisions
  | _, _ => List.filter (fun d => negb (skipped_by_filter t_from t_to d)) decisions
  end.

(** String rendering done by the runtime. *)
Record Formatting : Type := {
  (** [t.isoformat()]. *)
  isoformat : instant -> string;
  (** [f"{x:.4f}%"]. *)
  fmt_pct : Q -> string;
  (** [f"{x}"] for an [Optional[float]]. *)
  fmt_value : option Q -> string
}.

(** A value handed to [csv.writer.writerow]. *)
Inductive cell : Type :=
| CStr (s : string)
| CInt (z : Z)
| CFloat (q : Q)
| CBool (b : bool).

Definition csv_header : list cell :=
  map CStr
    ["ts"; "symbol"; "action"; "decision_price"; "decision_qty";
     "decision_order_id"; "order_time"; "order_id"; "side"; "positionSide";
     "reduceOnly"; "avgPrice"; "executedQty"; "price_match"; "qty_match";
     "price_diff_pct"; "qty_diff_pct"; "match_method"].

(** [x if x is not None else ''] *)
Definition float_cell (x : option Q) : cell :=
  match x with Some q => CFloat q | None => CStr EmptyString end.

(** [d.order_id if d.order_id else ''] *)
Definition order_id_cell (x : option Z) : cell :=
  match x with
  | Some i => if negb (i =? 0) then CInt i else CStr EmptyString
  | None => CStr EmptyString
  end.

Definition bool_cell (x : option bool) : cell :=
  match x with Some b => CBool b | None => CStr EmptyString end.

(** ['OK' if v is True else ('NA' if v is None else 'NG')] *)
Definition verdict_label (v : option bool) : string :=
  match v with
  | Some true => "OK"
  | None => "NA"
  | Some false => "NG"
  end.

Section Report.

Variable fm : Formatting.

(** [price_diff_pct] / [qty_diff_pct]. *)
Definition diff_pct (claimed actual : option Q) : string :=
  match claimed, actual with
  | Some c, Some a =>
      if negb (Qeq_bool a 0) then fmt_pct fm (Qabs (c - a) / Qabs a * 100)
      else EmptyString
  | _, _ => EmptyString
  end.

Definition decision_cells (d : DecisionOp.t) : list cell :=
  [CStr (isoformat fm (DecisionOp.ts d)); CStr (DecisionOp.symbol d);
   CStr (DecisionOp.action d); float_cell (DecisionOp.price d);
   float_cell (DecisionOp.qty d); order_id_cell (DecisionOp.order_id d)].

Definition not_found_row (d : DecisionOp.t) : list cell :=
  decision_cells d
  ++ map CStr [EmptyString; EmptyString; EmptyString; EmptyString;
               EmptyString; EmptyString; EmptyString]
  ++ map CStr [EmptyString; EmptyString; EmptyString; EmptyString; "not_found"].

Definition matched_row (d : DecisionOp.t) (o : OrderRow.t)
    (price_ok qty_ok : option bool) (method : string) : list cell :=
  decision_cells d
  ++ [CStr (isoformat fm (OrderRow.time o)); CInt (OrderRow.order_id o);
      CStr (OrderRow.side o); CStr (or_empty (OrderRow.position_side o));
      bool_cell (OrderRow.reduce_only o); float_cell (OrderRow.avg_price o);
      float_cell (OrderRow.executed_qty o)]
  ++ [CStr (verdict_label price_ok); CStr (verdict_label qty_ok);
      CStr (diff_pct (DecisionOp.price d) (OrderRow.avg_price o));
      CStr (diff_pct (DecisionOp.qty d) (OrderRow.executed_qty o));
      CStr method].

(** The text of a failure: one part per verdict that is [False], or the
    fixed text when there is none. *)
Definition failure_text (d : DecisionOp.t) (o : OrderRow.t)
    (price_ok qty_ok : option bool) : string :=
  let msg :=
    (if bool_decide (price_ok = Some false) then
       [String.append "价格不一致: dec="
          (String.append (fmt_value fm (DecisionOp.price d))
             (String.append " vs avg="
                (String.append (fmt_value fm (OrderRow.avg_price o))
                   (String.append " ("
                      (String.append
                         (diff_pct (DecisionOp.price d) (OrderRow.avg_price o))
                         ")")))))]
     else [])
    ++ (if bool_decide (qty_ok = Some false) then
          [String.append "数量或方向不一致: dec="
             (String.append (fmt_value fm (DecisionOp.qty d))
                (String.append " vs exec="
                   (String.append (fmt_value fm (OrderRow.executed_qty o))
                      (String.append " ("
                         (String.append
                            (diff_pct (DecisionOp.qty d) (OrderRow.executed_qty o))
                            ")")))))]
        else []) in
  let joined := String.concat "; " msg in
  if bool_decide (joined = EmptyString) then "字段缺失" else joined.

(** The variables the loop of [main] updates. *)
Record run : Type := {
  total : Z;
  matched : Z;
  pass_cnt : Z;
  fail_rows : list (string * string * string * string);
  csv_rows : list (list cell)
}.

Definition run_start : run :=
  {| total := 0; matched := 0; pass_cnt := 0; fail_rows := [];
     csv_rows := [csv_header] |}.

Definition fail_row (d : DecisionOp.t) (text : string)
  : string * string * string * string :=
  (isoformat fm (DecisionOp.ts d), DecisionOp.symbol d, DecisionOp.action d, text).

(** One iteration of [for d in decisions]. *)
Definition main_step (strict : bool) (orders : list OrderRow.t)
    (time_tolerance_sec : Z) (price_tol_pct qty_tol_pct : Q)
    (st : run) (d : DecisionOp.t) : run :=
  let '(o, method) := match_decision strict orders time_tolerance_sec d in
  match o with
  | None =>
      {| total := total st + 1;
         matched := matched st;
         pass_cnt := pass_cnt st;
         fail_rows := fail_rows st ++ [fail_row d "未找到匹配订单"];
         csv_rows := csv_rows st ++ [not_found_row d] |}
  | Some o =>
      let '(price_ok, qty_ok, passed) :=
        validate strict price_tol_pct qty_tol_pct d o in
      {| total := total st + 1;
         matched := matched st + 1;
         pass_cnt := if passed then pass_cnt st + 1 else pass_cnt st;
         fail_rows :=
           if passed then fail_rows st
           else fail_rows st ++ [fail_row d (failure_text d o price_ok qty_ok)];
         csv_rows := csv_rows st ++ [matched_row d o price_ok qty_ok method] |}
  end.

Definition main_loop (strict : bool) (orders : list OrderRow.t)
    (time_tolerance_sec : Z) (price_tol_pct qty_tol_pct : Q)
    (decisions : list DecisionOp.t) : run :=
  foldl (main_step strict orders time_tolerance_sec price_tol_pct qty_tol_pct)
    run_start decisions.

(** What the summary prints: the count of failed or unmatched decisions
    and the listed failures. *)
Definition summary_failed (st : run) : Z := total st - pass_cnt st.

Definition summary_listed (st : run)
  : list (string * string * string * string) :=
  take 100 (fail_rows st).

End Report.

(* ===================================================================== *)
(** ** Predicates used in the statements *)
(* ===================================================================== *)

Definition has_id (i : Z) (o : OrderRow.t) : bool :=
  bool_decide (OrderRow.order_id o = i).

(** A time within the tolerance on either side of the decision, bounds
    included. *)
Definition in_window (dec : DecisionOp.t) (time_tol_sec : Z) (o : OrderRow.t) : bool :=
  (DecisionOp.ts dec - timedelta_seconds time_tol_sec <=? OrderRow.time o)
  && (OrderRow.time o <=? DecisionOp.ts dec + timedelta_seconds time_tol_sec).

(** Equal position sides, required only when both are given. *)
Definition position_side_agrees (expected actual : option string) : bool :=
  match expected, actual with
  | Some e, Some p => bool_decide (p = e)
  | _, _ => true
  end.

(** The time-window candidate as the specification words it: same symbol,
    status [FILLED], the side of the action table, a time in the window
    and, when the table and the row both give a position side, the same
    position side. *)
Definition spec_candidate (dec : DecisionOp.t) (time_tol_sec : Z)
    (o : OrderRow.t) : bool :=
  bool_decide (OrderRow.symbol o = DecisionOp.symbol dec)
  && bool_decide (OrderRow.status o = "FILLED")
  && bool_decide (OrderRow.side o = (action_to_order_filters (DecisionOp.action dec)).1.1)
  && in_window dec time_tol_sec o
  && position_side_agrees (action_to_order_filters (DecisionOp.action dec)).1.2
       (OrderRow.position_side o).

(** Distance in time of a row to a decision, the sort key of the matcher. *)
Definition distance (dec : DecisionOp.t) (o : OrderRow.t) : Z :=
  abs_diff (OrderRow.time o) (DecisionOp.ts dec).


(** Some event of [ops] has this symbol and action and lies less than
    600 s from [ts_base]. *)
Definition reported_near (ts_base : instant) (symbol action : string)
    (ops : list DecisionOp.t) : Prop :=
  exists o, In o ops /\
    DecisionOp.symbol o = symbol /\ DecisionOp.action o = action /\
    abs_diff (DecisionOp.ts o) ts_base < 600 * 1000000.

(** The loop of [parse_decision_ops] resumed with [ops] already
    collected. *)
Definition parse_from (py : Builtins) (ops : list DecisionOp.t)
    (files : list doc_file) : option (list DecisionOp.t) :=
  foldl (fun acc f => ops ← acc; parse_document py ops f) (Some ops) files.

(** The events have pairwise different (symbol, action) pairs. *)
Definition distinct_actions (ops : list DecisionOp.t) : Prop :=
  NoDup (map (fun e => (DecisionOp.symbol e, DecisionOp.action e)) ops).

(* ===================================================================== *)
(** ** Sample runtime and data for the worked examples *)
(* ===================================================================== *)

Definition sample_line : string := "✓ BTCUSDT open_long 成功".

(** A runtime that agrees with Python on the values the examples use:
    ASCII text, integers, the empty list, the numerals [42] and [2000.0],
    one timestamp and one execution-log line. *)
Definition sample_py : Builtins := {|
  int_of_str := fun s => if bool_decide (s = "42") then Some 42 else None;
  float_of_str := fun s => if bool_decide (s = "2000.0") then Some (2000 # 1) else None;
  repr_value := fun v =>
    match v with
    | JInt z => NilZero.string_of_int (Z.to_int z)
    | _ => "[]"
    end;
  str_chars := fun s =>
    map (fun c => String c EmptyString) (list_ascii_of_string s);
  fromisoformat := fun s =>
    if bool_decide (s = "1970-01-02T00:00:00+00:00") then Some (of_seconds 86400)
    else None;
  exec_log_search := fun s =>
    if bool_decide (s = sample_line) then Some ("BTCUSDT", "open_long") else None;
  utc_now := of_seconds 1762782649
|}.

(** Ledger rows and decisions around an arbitrary instant [T0]. *)
Definition T0 : instant := of_seconds 1762782649.

Definition eth_order (id : Z) (t : instant) (status : string) : OrderRow.t :=
  OrderRow.mk t id "ETHUSDT" "BUY" (Some "LONG") (Some false) status "MARKET"
    (Some 2000%Q) (Some 1%Q).

(** A BUY/LONG row whose [reduceOnly] is true, against the table's false
    for [open_long]. *)
Definition eth_reduce_only_order (id : Z) (t : instant) : OrderRow.t :=
  OrderRow.mk t id "ETHUSDT" "BUY" (Some "LONG") (Some true) "FILLED" "MARKET"
    (Some 2000%Q) (Some 1%Q).

Definition eth_decision (t : instant) (id : option Z) : DecisionOp.t :=
  DecisionOp.mk t "ETHUSDT" "open_long" (Some 2005%Q) (Some 1%Q) id true.

Definition sample_ledger : list OrderRow.t :=
  [eth_order 41 (T0 - 60000000) "FILLED";
   eth_order 42 (T0 + 20000000) "NEW";
   eth_reduce_only_order 43 (T0 + 60000000);
   eth_order 44 (T0 + 181000000) "FILLED"].

(** Raw ledger records. *)
Definition raw_good : json :=
  JObj [("orderId", JInt 42); ("symbol", JStr "ETHUSDT"); ("side", JStr "BUY");
        ("positionSide", JStr "LONG"); ("reduceOnly", JBool false);
        ("status", JStr "FILLED"); ("type", JStr "MARKET");
        ("avgPrice", JStr "2000.0"); ("executedQty", JInt 1);
        ("time", JInt 1762782649000)].

Definition raw_bad_id : json :=
  JObj [("orderId", JStr "n/a"); ("symbol", JStr "ETHUSDT");
        ("time", JInt 1762782649000)].

Definition raw_no_time : list (string * json) :=
  [("orderId", JInt 7); ("symbol", JStr "ETHUSDT"); ("side", JStr "BUY");
   ("status", JStr "FILLED"); ("updateTime", JInt 0)].

(** Decision documents: one with a structured success entry and the
    matching free-text line, one with the free-text line twice and no
    structured entry. *)
Definition btc_entry : json :=
  JObj [("action", JStr "open_long"); ("symbol", JStr "BTCUSDT");
        ("price", JInt 100000); ("quantity", JInt 1);
        ("order_id", JInt 42); ("success", JBool true)].

Definition doc_both : doc_file := {|
  doc_json := Some (JObj [("decisions", JArr [btc_entry]);
                          ("execution_log", JArr [JStr sample_line])]);
  doc_mtime := T0
|}.

Definition doc_twice : doc_file := {|
  doc_json := Some (JObj [("execution_log",
                           JArr [JStr sample_line; JStr sample_line])]);
  doc_mtime := T0
|}.

(** A runtime for the decoration script that agrees with Python on the
    two instants the examples format (zone UTC+08:00) and on text without
    surrounding white space. *)
Definition sample_rt : TimeRuntime := {|
  str_strip := fun s => s;
  strftime_local := fun seconds minutes =>
    if (seconds =? 1762782649) && (minutes =? 480) then Some "2025-11-10 21:50:49 "
    else if (seconds =? 0) && (minutes =? 480) then Some "1970-01-01 08:00:00 "
    else None
|}.

(* ===================================================================== *)
(** * Properties *)
(* ===================================================================== *)

(** ** Digit count against magnitude *)

Lemma digits_fuel_bounds (f : nat) : forall n : Z,
  0 <= n -> n < 2 ^ Z.of_nat f ->
  n < 10 ^ Z.of_nat (digits_fuel f n) /\
  (10 <= n -> 10 ^ (Z.of_nat (digits_fuel f n) - 1) <= n) /\
  (1 <= digits_fuel f n)%nat.
Proof.
  induction f as [|f IH]; intros n Hn Hlt.
  - simpl in *. repeat split; lia.
  - cbn [digits_fuel]. destruct (Z.ltb_spec n 10) as [Hs|Hs].
    + repeat split; simpl; lia.
    + assert (Hq : 0 <= n / 10) by (apply Z.div_pos; lia).
      assert (Hq2 : n / 10 < 2 ^ Z.of_nat f).
      { apply Z.div_lt_upper_bound; [lia|].
        rewrite Nat2Z.inj_succ, Z.pow_succ_r in Hlt by lia. lia. }
      destruct (IH (n / 10) Hq Hq2) as (Hu & Hl & Hone).
      rewrite Nat2Z.inj_succ.
      pose proof (Z.div_mod n 10 ltac:(lia)) as Hdm.
      pose proof (Z.mod_pos_bound n 10 ltac:(lia)) as Hmb.
      repeat split.
      * rewrite Z.pow_succ_r by lia. lia.
      * intros _. replace (Z.succ (Z.of_nat (digits_fuel f (n / 10))) - 1)
          with (Z.of_nat (digits_fuel f (n / 10))) by lia.
        destruct (Z.ltb_spec (n / 10) 10) as [Hs2|Hs2].
        -- destruct f; cbn [digits_fuel] in *.
           ++ simpl. lia.
           ++ destruct (Z.ltb_spec (n / 10) 10); [simpl; lia | lia].
        -- specialize (Hl Hs2).
           replace (Z.of_nat (digits_fuel f (n / 10)))
             with (Z.succ (Z.of_nat (digits_fuel f (n / 10)) - 1)) by lia.
           rewrite Z.pow_succ_r by lia. lia.
      * lia.
Qed.

Lemma str_len_bounds (n : Z) :
  0 <= n ->
  n < 10 ^ Z.of_nat (str_len n) /\
  (10 <= n -> 10 ^ (Z.of_nat (str_len n) - 1) <= n) /\
  (1 <= str_len n)%nat.
Proof.
  intros Hn. unfold str_len. apply digits_fuel_bounds; [lia|].
  destruct (Z.eq_dec n 0) as [->|Hnz].
  - simpl. lia.
  - rewrite Nat2Z.inj_succ, Z2Nat.id by apply Z.log2_nonneg.
    apply Z.log2_spec. lia.
Qed.

(** [k] digits or more means [10^(k-1)] or more (for [k >= 2]). *)
Lemma str_len_ge (n : Z) (k : nat) :
  0 <= n -> (2 <= k)%nat ->
  ((k <=? str_len n)%nat = true <-> 10 ^ (Z.of_nat k - 1) <= n).
Proof.
  intros Hn Hk. destruct (str_len_bounds n Hn) as (Hu & Hl & Hone).
  rewrite Nat.leb_le. split.
  - intros Hle.
    assert (H10 : 10 <= n).
    { destruct (Z.lt_ge_cases n 10) as [Hs|Hs]; [|lia].
      exfalso. unfold str_len in Hle.
      cbn [digits_fuel] in Hle. destruct (Z.ltb_spec n 10); lia. }
    specialize (Hl H10).
    eapply Z.le_trans; [|exact Hl].
    apply Z.pow_le_mono_r; lia.
  - intros Hle.
    destruct (Nat.le_gt_cases k (str_len n)) as [?|Hgt]; [done|exfalso].
    assert (10 ^ Z.of_nat (str_len n) <= 10 ^ (Z.of_nat k - 1))
      by (apply Z.pow_le_mono_r; lia).
    lia.
Qed.

(** ** Epoch normalisation *)





(** ** Percentage tolerance *)






(** ** The action table *)

Lemma action_filters_cases (a : string) :
  action_to_order_filters a = ("BUY", Some "LONG", Some false) \/
  action_to_order_filters a = ("SELL", Some "SHORT", Some false) \/
  action_to_order_filters a = ("SELL", Some "LONG", Some true) \/
  action_to_order_filters a = ("BUY", Some "SHORT", Some true) \/
  action_to_order_filters a = (EmptyString, None, None).
Proof. unfold action_to_order_filters. repeat case_bool_decide; tauto. Qed.

Lemma action_filters_pos_truthy (a side e : string) (r : option bool) :
  action_to_order_filters a = (side, Some e, r) ->
  truthy_str (Some e) = true /\ r <> None.
Proof.
  destruct (action_filters_cases a) as [H|[H|[H|[H|H]]]]; rewrite H;
    intros [= <- <- <-]; done.
Qed.

(** ** Identifier lookup *)

Lemma find_snoc {A : Type} (p : A -> bool) (l : list A) (x : A) :
  List.find p (l ++ [x])
  = match List.find p l with
    | Some y => Some y
    | None => if p x then Some x else None
    end.
Proof.
  induction l as [|y l IH]; simpl; [done|]. by destruct (p y).
Qed.

Lemma foldl_insert_lookup (l : list OrderRow.t) : forall (m : gmap Z OrderRow.t) (i : Z),
  foldl (fun m o => <[OrderRow.order_id o := o]> m) m l !! i
  = match List.find (has_id i) (rev l) with
    | Some o => Some o
    | None => m !! i
    end.
Proof.
  induction l as [|x l IH]; intros m i; simpl; [done|].
  rewrite IH, find_snoc. destruct (List.find (has_id i) (rev l)); [done|].
  unfold has_id. case_bool_decide as Hx.
  - subst i. by rewrite lookup_insert_eq.
  - by rewrite lookup_insert_ne.
Qed.

Lemma order_by_id_lookup (orders : list OrderRow.t) (i : Z) :
  order_by_id orders !! i = List.find (has_id i) (rev orders).
Proof.
  unfold order_by_id. rewrite foldl_insert_lookup.
  by destruct (List.find (has_id i) (rev orders)).
Qed.

Lemma order_by_id_present (orders : list OrderRow.t) (i : Z) :
  (exists o, In o orders /\ OrderRow.order_id o = i) ->
  exists row, order_by_id orders !! i = Some row /\
              In row orders /\ OrderRow.order_id row = i.
Proof.
  intros (o & Hin & Hid). rewrite order_by_id_lookup.
  destruct (List.find (has_id i) (rev orders)) as [row|] eqn:Hf.
  - apply find_some in Hf as [Hin' Hp]. exists row. split; [done|]. split.
    + by apply in_rev.
    + unfold has_id in Hp. by apply bool_decide_eq_true in Hp.
  - exfalso. eapply find_none in Hf; [|apply in_rev; rewrite rev_involutive; exact Hin].
    unfold has_id in Hf. by apply bool_decide_eq_false in Hf.
Qed.

Lemma order_by_id_absent (orders : list OrderRow.t) (i : Z) :
  (forall o, In o orders -> OrderRow.order_id o <> i) ->
  order_by_id orders !! i = None.
Proof.
  intros Hno. rewrite order_by_id_lookup.
  destruct (List.find (has_id i) (rev orders)) as [row|] eqn:Hf; [|done].
  apply find_some in Hf as [Hin Hp]. apply in_rev in Hin.
  unfold has_id in Hp. apply bool_decide_eq_true in Hp. by apply Hno in Hin.
Qed.


(** ** Matching by identifier *)

(** C2 (as amended). A decision whose [order_id] is non-zero and carried by
    some ledger row is matched to a ledger row with that identifier (the
    last such row), with method [order_id], in strict and in lenient mode,
    whatever the time tolerance and whatever other rows the ledger holds. *)
Theorem C2_identifier_match (strict : bool) (orders : list OrderRow.t)
    (tol : Z) (d : DecisionOp.t) (i : Z) :
  DecisionOp.order_id d = Some i ->
  i <> 0 ->
  (exists o, In o orders /\ OrderRow.order_id o = i) ->
  exists row,
    match_decision strict orders tol d = (Some row, "order_id") /\
    In row orders /\ OrderRow.order_id row = i /\
    List.find (has_id i) (rev orders) = Some row.
Proof.
  intros Hd Hnz Hex.
  destruct (order_by_id_present orders i Hex) as (row & Hl & Hin & Hid).
  exists row. unfold match_decision. rewrite Hd.
  apply Z.eqb_neq in Hnz. rewrite Hnz. cbn. rewrite Hl.
  repeat split; try done. by rewrite <- order_by_id_lookup.
Qed.

Lemma C2_identifier_match_witness :
  exists row,
    match_decision false
      [eth_order 42 T0 "FILLED"; eth_order 43 (T0 + 30000000) "FILLED"]
      180 (eth_decision (T0 + 30000000) (Some 42))
    = (Some row, "order_id") /\
    In row [eth_order 42 T0 "FILLED"; eth_order 43 (T0 + 30000000) "FILLED"] /\
    OrderRow.order_id row = 42 /\
    List.find (has_id 42)
      (rev [eth_order 42 T0 "FILLED"; eth_order 43 (T0 + 30000000) "FILLED"])
    = Some row.
Proof.
  apply (C2_identifier_match false
           [eth_order 42 T0 "FILLED"; eth_order 43 (T0 + 30000000) "FILLED"]
           180 (eth_decision (T0 + 30000000) (Some 42)) 42).
  - reflexivity.
  - lia.
  - exists (eth_order 42 T0 "FILLED"). split; [by left | reflexivity].
Defined.

(** C2 (as stated) fails for the identifier 0, which the loop of [main]
    treats as no identifier: the ledger holds a row with [orderId] 0 and
    the decision carries [order_id] 0, yet strict mode reports no match and
    lenient mode answers with another row, found by time window. *)
Lemma C2_counterexample :
  let orders := [eth_order 0 (T0 + 100000000) "FILLED";
                 eth_order 43 (T0 + 30000000) "FILLED"] in
  let d := eth_decision (T0 + 30000000) (Some 0) in
  (exists o, In o orders /\ Some (OrderRow.order_id o) = DecisionOp.order_id d) /\
  match_decision true orders 180 d = (None, EmptyString) /\
  match_decision false orders 180 d
  = (Some (eth_order 43 (T0 + 30000000) "FILLED"), "time_window").
Proof.
  cbv zeta. split; [|split; vm_compute; reflexivity].
  eexists. split; [by left | reflexivity].
Qed.

(** C3. In strict mode a decision whose [order_id] is absent, or is carried
    by no ledger row, is unmatched; and in strict mode the outcome never
    comes from the time-window search: the method is never [time_window]
    and the result does not depend on the time tolerance. *)
Theorem C3_strict_no_time_window (orders : list OrderRow.t) :
  (forall (tol : Z) (d : DecisionOp.t),
     (forall i, DecisionOp.order_id d = Some i ->
                forall o, In o orders -> OrderRow.order_id o <> i) ->
     match_decision true orders tol d = (None, EmptyString)) /\
  (forall (tol tol' : Z) (d : DecisionOp.t),
     (match_decision true orders tol d).2 <> "time_window" /\
     match_decision true orders tol d = match_decision true orders tol' d).
Proof.
  split.
  - intros tol d Hno. unfold match_decision.
    destruct (DecisionOp.order_id d) as [i|] eqn:Hd; [|done].
    rewrite (order_by_id_absent orders i) by (by apply Hno).
    by destruct (negb (i =? 0)).
  - intros tol tol' d. unfold match_decision.
    destruct (DecisionOp.order_id d) as [i|]; [|done].
    destruct (negb (i =? 0)); [|done].
    by destruct (order_by_id orders !! i).
Qed.

Lemma C3_strict_no_time_window_witness :
  match_decision true [eth_order 42 T0 "FILLED"] 180
    (eth_decision (T0 + 30000000) None) = (None, EmptyString)
  /\ match_decision true [eth_order 42 T0 "FILLED"] 180
       (eth_decision (T0 + 30000000) (Some 41)) = (None, EmptyString).
Proof.
  split.
  - apply (proj1 (C3_strict_no_time_window [eth_order 42 T0 "FILLED"])).
    intros i Hi. discriminate Hi.
  - apply (proj1 (C3_strict_no_time_window [eth_order 42 T0 "FILLED"])).
    intros i [= <-] o [<- | []]. vm_compute. discriminate.
Defined.

(** ** Time-window candidates *)

Lemma is_candidate_spec (dec : DecisionOp.t) (tol : Z) (o : OrderRow.t) :
  OrderRow.position_side o <> Some EmptyString ->
  is_candidate dec tol true o = spec_candidate dec tol o.
Proof.
  intros Hwf. unfold is_candidate, spec_candidate, in_window.
  destruct (action_to_order_filters (DecisionOp.action dec)) as [[side pos] red] eqn:E.
  cbn [fst snd].
  assert (Hpos : forall e, pos = Some e -> truthy_str pos = true).
  { intros e ->. by eapply action_filters_pos_truthy. }
  rewrite !andb_false_r.
  case_bool_decide; cbn [negb andb]; [|done].
  case_bool_decide; cbn [negb andb]; [|done].
  case_bool_decide; cbn [negb andb]; [|done].
  destruct (Z.ltb_spec (OrderRow.time o) (DecisionOp.ts dec - timedelta_seconds tol));
    destruct (Z.leb_spec (DecisionOp.ts dec - timedelta_seconds tol) (OrderRow.time o));
    try lia; cbn [orb andb]; try done.
  rewrite ?Z.gtb_ltb.
  destruct (Z.ltb_spec (DecisionOp.ts dec + timedelta_seconds tol) (OrderRow.time o));
    destruct (Z.leb_spec (OrderRow.time o) (DecisionOp.ts dec + timedelta_seconds tol));
    try lia; cbn [orb andb]; try done.
  destruct pos as [e|]; [|done].
  rewrite (Hpos e eq_refl). cbn [andb].
  destruct (OrderRow.position_side o) as [p|] eqn:Ep; [|done].
  cbn [position_side_agrees truthy_str].
  rewrite bool_decide_eq_false_2 by congruence. cbn [negb andb].
  repeat case_bool_decide; try done; congruence.
Qed.

Lemma is_candidate_filled (dec : DecisionOp.t) (tol : Z) (allow : bool)
    (o : OrderRow.t) :
  is_candidate dec tol allow o = true -> OrderRow.status o = "FILLED".
Proof.
  unfold is_candidate.
  destruct (action_to_order_filters (DecisionOp.action dec)) as [[side pos] red].
  case_bool_decide; cbn [negb]; [|done].
  by case_bool_decide.
Qed.

(** ** The stable sort and its head *)

Lemma head_insert_by_key {A : Type} (key : A -> Z) (x : A) (l : list A) :
  head (insert_by_key key x l)
  = match head l with
    | None => Some x
    | Some y => if key x <=? key y then Some x else Some y
    end.
Proof. destruct l as [|y l]; simpl; [done|]. by destruct (key x <=? key y). Qed.

Lemma head_sort_by_key {A : Type} (key : A -> Z) (l : list A) :
  l <> [] ->
  exists pre c post,
    head (sort_by_key key l) = Some c /\
    l = pre ++ c :: post /\
    (forall p, In p pre -> key c < key p) /\
    (forall q, In q post -> key c <= key q).
Proof.
  induction l as [|x r IH]; [done|]. intros _.
  cbn [sort_by_key]. rewrite head_insert_by_key.
  destruct r as [|y r'].
  - exists [], x, []. simpl. repeat split; by intros ? [].
  - destruct IH as (pre & c & post & Hh & Hl & Hpre & Hpost); [done|].
    rewrite Hh. destruct (Z.leb_spec (key x) (key c)) as [Hle|Hgt].
    + exists [], x, (y :: r'). repeat split; [by intros ? []|].
      intros q Hq. rewrite Hl in Hq. apply in_app_or in Hq as [Hq|[<-|Hq]].
      * apply Hpre in Hq. lia.
      * done.
      * apply Hpost in Hq. lia.
    + exists (x :: pre), c, post. repeat split; [by rewrite Hl| |done].
      intros p [<-|Hp]; [lia | by apply Hpre].
Qed.

Lemma find_best_in_candidates (dec : DecisionOp.t) (orders : list OrderRow.t)
    (tol : Z) (allow : bool) (o : OrderRow.t) :
  find_best_order_match dec orders tol allow = Some o ->
  In o (candidates_of dec orders tol allow).
Proof.
  unfold find_best_order_match.
  destruct (candidates_of dec orders tol allow) as [|c cs] eqn:E; [done|].
  destruct (head_sort_by_key
              (fun x => abs_diff (OrderRow.time x) (DecisionOp.ts dec)) (c :: cs))
    as (pre & c' & post & Hh & Hl & _); [done|].
  rewrite Hh. intros [= <-]. rewrite Hl. apply in_or_app. right. by left.
Qed.

(** C4. With the position side of every ledger row either absent or a
    non-empty string (as the loader leaves it), the candidates of the
    time-window search are exactly the ledger rows, in ledger order, that
    satisfy [spec_candidate].  A row whose status is not [FILLED] is never
    the result of the search, and a row that satisfies [spec_candidate] is
    a candidate of the lenient search even when its [reduceOnly] is present
    and differs from the table's. *)
Theorem C4_time_window_candidates (dec : DecisionOp.t)
    (orders : list OrderRow.t) (tol : Z) :
  (forall o, In o orders -> OrderRow.position_side o <> Some EmptyString) ->
  candidates_of dec orders tol true = List.filter (spec_candidate dec tol) orders /\
  (forall (allow strict : bool) (o : OrderRow.t),
     OrderRow.status o <> "FILLED" ->
     find_best_order_match dec orders tol allow <> Some o /\
     match_decision strict orders tol dec <> (Some o, "time_window")) /\
  (forall (o : OrderRow.t) (e r : bool),
     In o orders -> spec_candidate dec tol o = true ->
     (action_to_order_filters (DecisionOp.action dec)).2 = Some e ->
     OrderRow.reduce_only o = Some r -> r <> e ->
     In o (candidates_of dec orders tol true)).
Proof.
  intros Hwf.
  assert (Heq : candidates_of dec orders tol true
                = List.filter (spec_candidate dec tol) orders).
  { unfold candidates_of. apply filter_ext_in. intros o Ho.
    apply is_candidate_spec. by apply Hwf. }
  split; [exact Heq|]. split.
  - intros allow strict o Hst.
    assert (Hfb : forall a, find_best_order_match dec orders tol a <> Some o).
    { intros a Hsel. apply find_best_in_candidates in Hsel.
      unfold candidates_of in Hsel. apply filter_In in Hsel as [_ Hc].
      by apply is_candidate_filled in Hc. }
    split; [apply Hfb|]. unfold match_decision.
    destruct (DecisionOp.order_id dec) as [i|]; cbn.
    + destruct (negb (i =? 0)); [destruct (order_by_id orders !! i)|].
      * intros [= _ Hm].
      * destruct strict; cbn; [done|]. intros [= Hsel _]. by apply Hfb in Hsel.
      * destruct strict; cbn; [done|]. intros [= Hsel _]. by apply Hfb in Hsel.
    + destruct strict; cbn; [done|]. intros [= Hsel _]. by apply Hfb in Hsel.
  - intros o e r Hin Hc _ _ _. rewrite Heq. apply filter_In. by split.
Qed.

Lemma C4_time_window_candidates_witness :
  candidates_of (eth_decision T0 None) sample_ledger 180 true
  = [eth_order 41 (T0 - 60000000) "FILLED"; eth_reduce_only_order 43 (T0 + 60000000)]
  /\ In (eth_reduce_only_order 43 (T0 + 60000000))
        (candidates_of (eth_decision T0 None) sample_ledger 180 true)
  /\ find_best_order_match (eth_decision T0 None) sample_ledger 180 true
     <> Some (eth_order 42 (T0 + 20000000) "NEW").
Proof.
  assert (Hwf : forall o, In o sample_ledger ->
                          OrderRow.position_side o <> Some EmptyString).
  { intros o [<-|[<-|[<-|[<-|[]]]]]; discriminate. }
  destruct (C4_time_window_candidates (eth_decision T0 None) sample_ledger 180 Hwf)
    as (Heq & Hnew & Hred).
  split; [rewrite Heq; reflexivity|]. split.
  - apply (Hred _ false true); [right; right; by left | reflexivity
                               | reflexivity | reflexivity | discriminate].
  - apply (Hnew true false). discriminate.
Defined.



(** In [sample_ledger] the rows 41 and 43 are both 60 s away from [T0]:
    the earlier one in the ledger is returned. *)
Example tie_break_sample :
  find_best_order_match (eth_decision T0 None) sample_ledger 180 true
  = Some (eth_order 41 (T0 - 60000000) "FILLED").
Proof. reflexivity. Qed.

(** ** Pass policy *)





(** ** Ledger loader *)










(** ** Decision extractor: duplicate suppression *)

Lemma already_reported_iff (ts_base : instant) (symbol action : string)
    (ops : list DecisionOp.t) :
  already_reported ts_base symbol action ops = true
  <-> reported_near ts_base symbol action ops.
Proof.
  unfold already_reported, reported_near. rewrite existsb_exists.
  split; intros (o & Hin & H); exists o; (split; [done|]).
  - apply andb_true_iff in H as [H Ht]. apply andb_true_iff in H as [Hs Ha].
    apply bool_decide_eq_true in Hs, Ha. apply Z.ltb_lt in Ht. done.
  - destruct H as (Hs & Ha & Ht).
    rewrite !andb_true_iff, !bool_decide_eq_true, Z.ltb_lt. done.
Qed.

(** C8 (as amended). A free-text line that the pattern recognises is
    suppressed exactly when some event collected so far (structured or
    free-text, of this document or of an earlier one) has the same symbol
    and action and a timestamp less than 600 s from the document base
    timestamp; otherwise one event is appended, carrying the base timestamp
    and no price, quantity or order id.  A single document holding one
    successful structured decision and one free-text line for the same
    symbol and action, the decision less than 600 s from the base
    timestamp, yields exactly that one structured event. *)
Theorem C8_fallback_suppression (py : Builtins) :
  (forall (ts_base : instant) (ops : list DecisionOp.t) (s symbol action : string),
     exec_log_search py s = Some (symbol, action) ->
     (reported_near ts_base symbol action ops ->
        fallback_line py ts_base ops (JStr s) = ops) /\
     (~ reported_near ts_base symbol action ops ->
        fallback_line py ts_base ops (JStr s)
        = ops ++ [DecisionOp.mk ts_base symbol action None None None true])) /\
  (forall (f : doc_file) (kvs : list (string * json)) (d : json) (s : string)
          (e : DecisionOp.t),
     doc_json f = Some (JObj kvs) ->
     dict_get kvs "decisions" = JArr [d] ->
     dict_get kvs "execution_log" = JArr [JStr s] ->
     decision_entry py (base_timestamp py (JObj kvs) (doc_mtime f)) d = Some e ->
     exec_log_search py s = Some (DecisionOp.symbol e, DecisionOp.action e) ->
     abs_diff (DecisionOp.ts e) (base_timestamp py (JObj kvs) (doc_mtime f))
       < 600 * 1000000 ->
     parse_decision_ops py [f] = Some [e]).
Proof.
  split.
  - intros ts_base ops s symbol action Hm. unfold fallback_line. rewrite Hm.
    split; intros H.
    + apply already_reported_iff in H. by rewrite H.
    + destruct (already_reported ts_base symbol action ops) eqn:E; [|done].
      by apply already_reported_iff in E.
  - intros f kvs d s e Hf Hd Hl He Hm Hnear.
    unfold parse_decision_ops. cbn [foldl mbind option_bind].
    unfold parse_document. rewrite Hf.
    assert (Hne : truthy (JObj kvs) = true).
    { destruct kvs; [discriminate Hd | done]. }
    rewrite Hne. cbn [negb py_get mbind option_bind].
    set (tb := base_timestamp py (JObj kvs) (doc_mtime f)) in *.
    rewrite Hd, Hl.
    change (py_or (JArr [d]) (JArr [])) with (JArr [d]).
    change (py_or (JArr [JStr s]) (JArr [])) with (JArr [JStr s]).
    cbn [py_iter mbind option_bind omap list_omap app foldl]. rewrite He.
    cbn [fallback_line app]. rewrite Hm.
    assert (Hrep : already_reported tb
                     (DecisionOp.symbol e) (DecisionOp.action e) [e] = true).
    { apply already_reported_iff. exists e. repeat split; [by left | done]. }
    by rewrite Hrep.
Qed.

Lemma C8_fallback_suppression_witness :
  parse_decision_ops sample_py [doc_both]
  = Some [DecisionOp.mk T0 "BTCUSDT" "open_long"
            (Some (inject_Z 100000)) (Some (inject_Z 1)) (Some 42) true]
  /\ fallback_line sample_py T0 [] (JStr sample_line)
     = [DecisionOp.mk T0 "BTCUSDT" "open_long" None None None true].
Proof.
  split.
  - apply (proj2 (C8_fallback_suppression sample_py) doc_both
             [("decisions", JArr [btc_entry]);
              ("execution_log", JArr [JStr sample_line])]
             btc_entry sample_line);
      [reflexivity | reflexivity | reflexivity | reflexivity | reflexivity |].
    vm_compute. reflexivity.
  - apply (proj1 (C8_fallback_suppression sample_py) T0 [] sample_line);
      [reflexivity|].
    intros (o & [] & _).
Defined.

(** C8 (as stated) fails when the earlier event is itself a free-text
    one: the document has no structured decision and the same line twice;
    the second line is suppressed and a single event comes out. *)
Lemma C8_counterexample :
  omap (decision_entry sample_py T0) [] = [] /\
  fallback_line sample_py T0 [] (JStr sample_line) = [fallback_event T0 "BTCUSDT" "open_long"] /\
  fallback_line sample_py T0 [fallback_event T0 "BTCUSDT" "open_long"] (JStr sample_line)
  = [fallback_event T0 "BTCUSDT" "open_long"] /\
  parse_decision_ops sample_py [doc_twice]
  = Some [fallback_event T0 "BTCUSDT" "open_long"].
Proof. vm_compute. repeat split. Qed.

(** ** Further worked evaluations *)

(** A record without [symbol] is not dropped: [str(None)] is the text
    [None]. *)
Example missing_symbol_is_kept :
  map OrderRow.symbol
    (load_orders sample_py [JObj [("orderId", JInt 7); ("time", JInt 0)]])
  = ["None"].
Proof. reflexivity. Qed.

(** In strict mode a row without position side also fails the quantity
    verdict. *)
Example strict_absent_position_side :
  (validate true (5 # 10) 1 (eth_decision T0 None)
     (OrderRow.mk T0 41 "ETHUSDT" "BUY" None (Some false) "FILLED" "MARKET"
        (Some 2000%Q) (Some 1%Q))).1.2 = Some false.
Proof. reflexivity. Qed.

(** A structured event exactly 600 s from the base timestamp does not
    suppress the free-text line. *)
Example boundary_600_seconds :
  already_reported T0 "BTCUSDT" "open_long"
    [DecisionOp.mk (T0 + 600000000) "BTCUSDT" "open_long" None None None true]
  = false.
Proof. reflexivity. Qed.

(** The end-to-end scenario of the specification: a FILLED BUY/LONG order
    at [T0], a decision 30 s later without order id. *)
Example end_to_end_lenient :
  match_decision false [eth_order 42 T0 "FILLED"] 180
    (eth_decision (T0 + 30000000) None)
  = (Some (eth_order 42 T0 "FILLED"), "time_window")
  /\ validate false (5 # 10) 1 (eth_decision (T0 + 30000000) None)
       (eth_order 42 T0 "FILLED")
     = (Some true, Some true, true).
Proof. split; reflexivity. Qed.

Example end_to_end_strict :
  match_decision true [eth_order 42 T0 "FILLED"] 180
    (eth_decision (T0 + 30000000) None)
  = (None, EmptyString).
Proof. reflexivity. Qed.

(* ===================================================================== *)
(** * Further properties of the two scripts *)
(* ===================================================================== *)

(** ** [_epoch_to_seconds]: range, sign, repeated application *)

Lemma epoch_to_seconds_cases (v : Z) :
  (10 ^ 18 <= Z.abs v /\ _epoch_to_seconds v = v / 10 ^ 9) \/
  (10 ^ 15 <= Z.abs v < 10 ^ 18 /\ _epoch_to_seconds v = v / 10 ^ 6) \/
  (10 ^ 12 <= Z.abs v < 10 ^ 15 /\ _epoch_to_seconds v = v / 10 ^ 3) \/
  (Z.abs v < 10 ^ 12 /\ _epoch_to_seconds v = v).
Proof.
  assert (Hn : 0 <= Z.abs v) by apply Z.abs_nonneg.
  pose proof (str_len_ge (Z.abs v) 19 Hn ltac:(lia)) as H19.
  pose proof (str_len_ge (Z.abs v) 16 Hn ltac:(lia)) as H16.
  pose proof (str_len_ge (Z.abs v) 13 Hn ltac:(lia)) as H13.
  change (Z.of_nat 19 - 1) with 18 in H19.
  change (Z.of_nat 16 - 1) with 15 in H16.
  change (Z.of_nat 13 - 1) with 12 in H13.
  unfold _epoch_to_seconds.
  destruct (19 <=? str_len (Z.abs v))%nat eqn:E19.
  - left. split; [by apply H19 | done].
  - assert (Z.abs v < 10 ^ 18).
    { destruct (Z.lt_ge_cases (Z.abs v) (10 ^ 18)) as [?|Hge]; [done|].
      apply H19 in Hge. congruence. }
    destruct (16 <=? str_len (Z.abs v))%nat eqn:E16.
    + right; left. split; [split; [by apply H16 | done] | done].
    + assert (Z.abs v < 10 ^ 15).
      { destruct (Z.lt_ge_cases (Z.abs v) (10 ^ 15)) as [?|Hge]; [done|].
        apply H16 in Hge. congruence. }
      destruct (13 <=? str_len (Z.abs v))%nat eqn:E13.
      * right; right; left. split; [split; [by apply H13 | done] | done].
      * right; right; right. split; [|done].
        destruct (Z.lt_ge_cases (Z.abs v) (10 ^ 12)) as [?|Hge]; [done|].
        apply H13 in Hge. congruence.
Qed.

(** X1. For a non-negative epoch value below 10^21 (at most 21 digits) the
    normalised value is non-negative, below 10^12 and not larger than the
    input, so normalising it a second time changes nothing. *)
Theorem epoch_to_seconds_idempotent (v : Z) :
  0 <= v < 10 ^ 21 ->
  0 <= _epoch_to_seconds v < 10 ^ 12 /\
  _epoch_to_seconds v <= v /\
  _epoch_to_seconds (_epoch_to_seconds v) = _epoch_to_seconds v.
Proof.
  intros [Hlo Hhi].
  assert (Hr : 0 <= _epoch_to_seconds v < 10 ^ 12 /\ _epoch_to_seconds v <= v).
  { destruct (epoch_to_seconds_cases v) as [[H E]|[[H E]|[[H E]|[H E]]]];
      rewrite E; rewrite (Z.abs_eq v) in H by done.
    - repeat split.
      + apply Z.div_pos; lia.
      + apply Z.div_lt_upper_bound; lia.
      + apply Z.div_le_upper_bound; lia.
    - repeat split.
      + apply Z.div_pos; lia.
      + apply Z.div_lt_upper_bound; lia.
      + apply Z.div_le_upper_bound; lia.
    - repeat split.
      + apply Z.div_pos; lia.
      + apply Z.div_lt_upper_bound; lia.
      + apply Z.div_le_upper_bound; lia.
    - lia. }
  destruct Hr as [Hr Hle]. split; [done|]. split; [done|].
  destruct (epoch_to_seconds_cases (_epoch_to_seconds v))
    as [[H _]|[[H _]|[[H _]|[_ ->]]]]; [| | |done];
    rewrite Z.abs_eq in H by lia; lia.
Qed.

Lemma epoch_to_seconds_idempotent_witness :
  _epoch_to_seconds (_epoch_to_seconds 1762782649123456)
  = _epoch_to_seconds 1762782649123456.
Proof. apply (epoch_to_seconds_idempotent 1762782649123456). lia. Defined.

(** X2. Normalisation keeps the sign and never increases the magnitude;
    a negative value stays negative because the division rounds down. *)
Theorem epoch_to_seconds_sign (v : Z) :
  Z.abs (_epoch_to_seconds v) <= Z.abs v /\
  (0 <= v -> 0 <= _epoch_to_seconds v) /\
  (v < 0 -> _epoch_to_seconds v < 0).
Proof.
  assert (Hdiv : forall k, 0 < k ->
            Z.abs (v / k) <= Z.abs v /\ (0 <= v -> 0 <= v / k) /\ (v < 0 -> v / k < 0)).
  { intros k Hk. repeat split.
    - destruct (Z.le_gt_cases 0 v) as [Hv|Hv].
      + rewrite !Z.abs_eq; [apply Z.div_le_upper_bound; nia | done
                            | apply Z.div_pos; lia].
      + assert (v / k < 0) by (apply Z.div_lt_upper_bound; lia).
        assert (v <= v / k) by (apply Z.div_le_lower_bound; nia).
        rewrite !Z.abs_neq; lia.
    - intros Hv. apply Z.div_pos; lia.
    - intros Hv. apply Z.div_lt_upper_bound; lia. }
  destruct (epoch_to_seconds_cases v) as [[_ ->]|[[_ ->]|[[_ ->]|[_ ->]]]];
    try (apply Hdiv; lia).
  repeat split; lia.
Qed.

Lemma epoch_to_seconds_sign_witness :
  _epoch_to_seconds (-1762782649123) < 0 /\ 0 <= _epoch_to_seconds 1762782649123.
Proof.
  split.
  - apply (proj2 (proj2 (epoch_to_seconds_sign (-1762782649123)))). lia.
  - apply (proj1 (proj2 (epoch_to_seconds_sign 1762782649123))). lia.
Defined.

(** ** [add_timezh] *)

Lemma dict_get_set (kvs : list (string * json)) (k k' : string) (v : json) :
  dict_get (dict_set kvs k v) k'
  = if bool_decide (k = k') then v else dict_get kvs k'.
Proof.
  induction kvs as [|[k0 v0] kvs IH]; cbn.
  - by case_bool_decide.
  - destruct (bool_decide (k0 = k)) eqn:E0; cbn.
    + apply bool_decide_eq_true in E0. subst k0. by case_bool_decide.
    + apply bool_decide_eq_false in E0. rewrite IH.
      repeat case_bool_decide; congruence.
Qed.

Lemma dict_mem_set (kvs : list (string * json)) (k k' : string) (v : json) :
  dict_mem (dict_set kvs k v) k' = dict_mem kvs k' || bool_decide (k = k').
Proof.
  unfold dict_mem. induction kvs as [|[k0 v0] kvs IH]; cbn.
  - by rewrite orb_false_r.
  - destruct (bool_decide (k0 = k)) eqn:E0; cbn.
    + apply bool_decide_eq_true in E0. subst k0.
      destruct (bool_decide (k = k')); cbn; [done|]. by rewrite orb_false_r.
    + rewrite IH. by rewrite orb_assoc.
Qed.

Lemma dict_set_twice (kvs : list (string * json)) (k : string) (v : json) :
  dict_set (dict_set kvs k v) k v = dict_set kvs k v.
Proof.
  induction kvs as [|[k0 v0] kvs IH]; cbn.
  - by rewrite bool_decide_eq_true_2.
  - destruct (bool_decide (k0 = k)) eqn:E0; cbn; rewrite E0; [done|].
    by rewrite IH.
Qed.

Lemma decorate_inv (py : Builtins) (rt : TimeRuntime) (off : Q) (obj obj' : json) :
  decorate py rt off obj = Some obj' ->
  exists kvs raw timezh,
    obj = JObj kvs /\ dict_mem kvs "time" = true /\
    _to_int py rt (dict_get kvs "time") = Some raw /\
    format_with_offset rt (_epoch_to_seconds raw) off = Some timezh /\
    obj' = JObj (dict_set kvs "timezh" (JStr timezh)).
Proof.
  destruct obj as [| | | | | |kvs]; try done. cbn.
  destruct (dict_mem kvs "time") eqn:Em; [|done].
  destruct (_to_int py rt (dict_get kvs "time")) as [raw|] eqn:Er; [|done]. cbn.
  destruct (format_with_offset rt (_epoch_to_seconds raw) off) as [s|] eqn:Ef;
    [|done]. cbn. intros [= <-]. by exists kvs, raw, s.
Qed.

(** A second pass over an updated record writes the same text again. *)
Lemma decorate_again (py : Builtins) (rt : TimeRuntime) (off : Q) (obj : json) :
  decorate py rt off (default obj (decorate py rt off obj))
  = decorate py rt off obj.
Proof.
  destruct (decorate py rt off obj) as [obj'|] eqn:E; cbn; [|done].
  destruct (decorate_inv _ _ _ _ _ E) as (kvs & raw & s & -> & Hm & Hr & Hf & ->).
  cbn. rewrite dict_mem_set, Hm. cbn.
  rewrite dict_get_set. rewrite bool_decide_eq_false_2 by done.
  rewrite Hr. cbn. rewrite Hf. cbn. by rewrite dict_set_twice.
Qed.

Lemma add_timezh_foldl (py : Builtins) (rt : TimeRuntime) (off : Q)
    (records : list json) : forall (acc : list json) (n : Z),
  foldl (add_timezh_step py rt off) (acc, n) records
  = (acc ++ map (fun o => default o (decorate py rt off o)) records,
     n + Z.of_nat (length (omap (decorate py rt off) records))).
Proof.
  induction records as [|o rs IH]; intros acc n; cbn.
  - by rewrite app_nil_r, Z.add_0_r.
  - unfold add_timezh_step at 2.
    destruct (decorate py rt off o) as [o'|]; cbn; rewrite IH, <- app_assoc; cbn.
    + f_equal. lia.
    + done.
Qed.

Lemma add_timezh_map (py : Builtins) (rt : TimeRuntime) (off : Q)
    (records : list json) :
  add_timezh py rt records off
  = (map (fun o => default o (decorate py rt off o)) records,
     Z.of_nat (length (omap (decorate py rt off) records))).
Proof. unfold add_timezh. by rewrite add_timezh_foldl. Qed.

Lemma omap_length_le {A B : Type} (f : A -> option B) (l : list A) :
  (length (omap f l) <= length l)%nat.
Proof.
  induction l as [|x l IH]; cbn; [done|]. destruct (f x); cbn; lia.
Qed.

(** X3. [add_timezh] returns as many records as it was given, in the same
    order; the count it returns is the number of records it updated and
    lies between 0 and the number of records. *)
Theorem add_timezh_count (py : Builtins) (rt : TimeRuntime) (off : Q)
    (records : list json) :
  let r := add_timezh py rt records off in
  length r.1 = length records /\
  r.2 = Z.of_nat (length (omap (decorate py rt off) records)) /\
  0 <= r.2 <= Z.of_nat (length records) /\
  (forall i obj, records !! i = Some obj ->
     r.1 !! i = Some (default obj (decorate py rt off obj))).
Proof.
  cbv zeta. rewrite add_timezh_map. cbn [fst snd].
  split; [by rewrite length_map|]. split; [done|]. split.
  - split; [lia|]. apply inj_le. apply omap_length_le.
  - intros i obj Hi. by rewrite list_lookup_fmap, Hi.
Qed.

Lemma add_timezh_count_witness :
  (add_timezh sample_py sample_rt [raw_good; JNull; JObj raw_no_time] 8).1 !! 0%nat
  = Some (default raw_good (decorate sample_py sample_rt 8 raw_good))
  /\ (add_timezh sample_py sample_rt [raw_good; JNull; JObj raw_no_time] 8).2 = 1.
Proof.
  destruct (add_timezh_count sample_py sample_rt 8
              [raw_good; JNull; JObj raw_no_time]) as (_ & Hn & _ & Hi).
  split; [by apply Hi | by rewrite Hn].
Defined.

(** X4. [add_timezh] touches nothing but the [timezh] key: every other key
    of every record reads as before, and a record that is not a dict, has
    no [time] key, or whose [time] is [None] is returned unchanged. *)
Theorem add_timezh_frame (py : Builtins) (rt : TimeRuntime) (off : Q)
    (records : list json) (i : nat) (obj : json) :
  records !! i = Some obj ->
  exists obj',
    (add_timezh py rt records off).1 !! i = Some obj' /\
    (forall k, k <> "timezh" -> py_get obj' k = py_get obj k) /\
    ((forall kvs, obj <> JObj kvs) -> obj' = obj) /\
    (forall kvs, obj = JObj kvs ->
       dict_mem kvs "time" = false \/ dict_get kvs "time" = JNull ->
       obj' = obj).
Proof.
  intros Hi. rewrite add_timezh_map. cbn [fst].
  exists (default obj (decorate py rt off obj)).
  split; [by rewrite list_lookup_fmap, Hi|].
  destruct (decorate py rt off obj) as [obj'|] eqn:E; cbn; [|done].
  destruct (decorate_inv _ _ _ _ _ E) as (kvs & raw & s & -> & Hm & Hr & Hf & ->).
  split; [|split].
  - intros k Hk. cbn. rewrite dict_get_set.
    by rewrite bool_decide_eq_false_2 by congruence.
  - intros Hnd. by destruct (Hnd kvs).
  - intros kvs' [= <-] [Hno | Hnull]; [congruence|].
    rewrite Hnull in Hr. discriminate Hr.
Qed.

Lemma add_timezh_frame_witness :
  exists obj',
    (add_timezh sample_py
       sample_rt
       [raw_good; JNull] 8).1 !! 0%nat = Some obj' /\
    (forall k, k <> "timezh" -> py_get obj' k = py_get raw_good k) /\
    ((forall kvs, raw_good <> JObj kvs) -> obj' = raw_good) /\
    (forall kvs, raw_good = JObj kvs ->
       dict_mem kvs "time" = false \/ dict_get kvs "time" = JNull ->
       obj' = raw_good).
Proof.
  apply (add_timezh_frame sample_py
           sample_rt
           8 [raw_good; JNull] 0 raw_good).
  reflexivity.
Defined.

(** X5. Running [add_timezh] again on its own output, with the same
    offset, returns the same records and the same count. *)
Theorem add_timezh_idempotent (py : Builtins) (rt : TimeRuntime) (off : Q)
    (records : list json) :
  add_timezh py rt (add_timezh py rt records off).1 off
  = add_timezh py rt records off.
Proof.
  rewrite !add_timezh_map. cbn [fst]. f_equal.
  - rewrite map_map. apply map_ext. intros o.
    rewrite decorate_again. by destruct (decorate py rt off o).
  - f_equal. induction records as [|o rs IH]; cbn; [done|].
    rewrite decorate_again.
    destruct (decorate py rt off o); cbn; by rewrite IH.
Qed.

(** ** [format_with_offset] *)







(** ** [within_pct]: reflexivity, monotonicity, sign *)

Lemma tolerance_scale_le (t1 t2 : Q) : (t1 <= t2)%Q -> (t1 / 100 <= t2 / 100)%Q.
Proof. intros H. unfold Qdiv. apply Qmult_le_compat_r; [done | discriminate]. Qed.



(** X8. Widening the tolerance never turns a pass into a failure. *)
Theorem within_pct_monotone (a b : option Q) (tol1 tol2 : Q) :
  within_pct a b tol1 = Some true -> (tol1 <= tol2)%Q ->
  within_pct a b tol2 = Some true.
Proof.
  intros H Hle. destruct a as [x|], b as [y|]; try done.
  unfold within_pct in *.
  destruct (Qeq_bool x 0 && Qeq_bool y 0); [done|].
  destruct (Qeq_bool x 0 || Qeq_bool y 0); [done|].
  injection H as H. f_equal. apply Qle_bool_iff. apply Qle_bool_iff in H.
  eapply Qle_trans; [exact H|]. by apply tolerance_scale_le.
Qed.

Lemma within_pct_monotone_witness :
  within_pct (Some 2005%Q) (Some 2000%Q) 1 = Some true.
Proof.
  apply (within_pct_monotone (Some 2005%Q) (Some 2000%Q) (5 # 10) 1);
    [reflexivity | discriminate].
Defined.

Lemma Qeq_bool_opp_0 (x : Q) : Qeq_bool (- x) 0 = Qeq_bool x 0.
Proof.
  apply eq_true_iff_eq. rewrite !Qeq_bool_iff. split; intros H.
  - rewrite <- (Qopp_involutive x), H. reflexivity.
  - rewrite H. reflexivity.
Qed.

(** X9. The verdict depends on magnitudes only: negating both the claimed
    and the actual value leaves it unchanged. *)
Theorem within_pct_opp (x y tol : Q) :
  within_pct (Some (- x)%Q) (Some (- y)%Q) tol = within_pct (Some x) (Some y) tol.
Proof.
  unfold within_pct. rewrite !Qeq_bool_opp_0.
  destruct (Qeq_bool x 0 && Qeq_bool y 0); [done|].
  destruct (Qeq_bool x 0 || Qeq_bool y 0); [done|].
  f_equal. apply eq_true_iff_eq. rewrite !Qle_bool_iff.
  assert (H1 : (- x - - y == - (x - y))%Q) by ring.
  rewrite H1, !Qabs_opp. reflexivity.
Qed.

(** ** [find_best_order_match]: soundness and stability *)

Lemma is_candidate_props (dec : DecisionOp.t) (tol : Z) (allow : bool)
    (o : OrderRow.t) :
  is_candidate dec tol allow o = true ->
  OrderRow.symbol o = DecisionOp.symbol dec /\
  OrderRow.status o = "FILLED" /\
  OrderRow.side o = (action_to_order_filters (DecisionOp.action dec)).1.1 /\
  in_window dec tol o = true.
Proof.
  unfold is_candidate, in_window.
  destruct (action_to_order_filters (DecisionOp.action dec)) as [[side pos] red].
  cbn [fst snd].
  case_bool_decide; cbn [negb]; [|done].
  case_bool_decide; cbn [negb]; [|done].
  case_bool_decide; cbn [negb]; [|done].
  rewrite Z.gtb_ltb.
  destruct (Z.ltb_spec (OrderRow.time o) (DecisionOp.ts dec - timedelta_seconds tol));
    [done|].
  destruct (Z.ltb_spec (DecisionOp.ts dec + timedelta_seconds tol) (OrderRow.time o));
    [done|]. intros _. repeat split; try done.
  apply andb_true_iff. split; by apply Z.leb_le.
Qed.


Lemma in_window_distance (dec : DecisionOp.t) (tol : Z) (o : OrderRow.t) :
  in_window dec tol o = true <-> distance dec o <= timedelta_seconds tol.
Proof.
  unfold in_window, distance, abs_diff.
  rewrite andb_true_iff, !Z.leb_le. lia.
Qed.




(** X10. Whatever the search returns is a ledger row with the decision's
    symbol, status [FILLED], the side of the action table and a time at most
    the tolerance away; in particular a negative tolerance finds nothing.
    It returns nothing exactly when no ledger row passes the tests. *)
Theorem find_best_sound (dec : DecisionOp.t) (orders : list OrderRow.t)
    (tol : Z) (allow : bool) :
  (forall o, find_best_order_match dec orders tol allow = Some o ->
     In o orders /\
     OrderRow.symbol o = DecisionOp.symbol dec /\
     OrderRow.status o = "FILLED" /\
     OrderRow.side o = (action_to_order_filters (DecisionOp.action dec)).1.1 /\
     distance dec o <= timedelta_seconds tol /\ 0 <= tol) /\
  (find_best_order_match dec orders tol allow = None <->
     forall o, In o orders -> is_candidate dec tol allow o = false).
Proof.
  split.
  - intros o Ho. apply find_best_in_candidates in Ho.
    unfold candidates_of in Ho. apply filter_In in Ho as [Hin Hc].
    destruct (is_candidate_props _ _ _ _ Hc) as (Hs & Hst & Hsd & Hw).
    apply in_window_distance in Hw. repeat split; try done.
    unfold timedelta_seconds, distance, abs_diff in *. lia.
  - unfold find_best_order_match, candidates_of. split.
    + intros Hn o Hin.
      destruct (is_candidate dec tol allow o) eqn:E; [|done].
      assert (Hf : In o (List.filter (is_candidate dec tol allow) orders))
        by (apply filter_In; by split).
      destruct (List.filter (is_candidate dec tol allow) orders) as [|c cs] eqn:Ef;
        [done|].
      destruct (head_sort_by_key
                  (fun x => abs_diff (OrderRow.time x) (DecisionOp.ts dec)) (c :: cs))
        as (? & ? & ? & Hh & _); [done|]. congruence.
    + intros Hall.
      destruct (List.filter (is_candidate dec tol allow) orders) as [|c cs] eqn:Ef;
        [done|].
      assert (Hc : In c (List.filter (is_candidate dec tol allow) orders))
        by (rewrite Ef; by left).
      apply filter_In in Hc as [Hin Hc]. rewrite (Hall c Hin) in Hc. done.
Qed.

Lemma find_best_sound_witness :
  In (eth_order 41 (T0 - 60000000) "FILLED") sample_ledger /\
  distance (eth_decision T0 None) (eth_order 41 (T0 - 60000000) "FILLED")
  <= timedelta_seconds 180.
Proof.
  destruct (proj1 (find_best_sound (eth_decision T0 None) sample_ledger 180 true)
              (eth_order 41 (T0 - 60000000) "FILLED") eq_refl)
    as (Hin & _ & _ & _ & Hd & _).
  by split.
Defined.



Local Ltac case_ifs :=
  repeat match goal with
         | |- context [if ?b then _ else _] =>
             lazymatch b with
             | true => fail
             | false => fail
             | _ => destruct b; cbn beta iota; try done
             end
         end.

Local Ltac case_ifs_in H :=
  repeat match type of H with
         | context [if ?b then _ else _] =>
             lazymatch b with
             | true => fail
             | false => fail
             | _ => destruct b; cbn beta iota in H; try done
             end
         end.

(** X12. With [allow_reduce_mismatch] false, a row whose [reduceOnly] is
    present and differs from the table's is not a candidate, so the row
    returned never has such a mismatch; every candidate of that search is
    also a candidate when the mismatch is allowed. *)
Theorem find_best_reduce_only_enforced (dec : DecisionOp.t)
    (orders : list OrderRow.t) (tol : Z) :
  (forall o e r,
     find_best_order_match dec orders tol false = Some o ->
     (action_to_order_filters (DecisionOp.action dec)).2 = Some e ->
     OrderRow.reduce_only o = Some r -> r = e) /\
  (forall o, is_candidate dec tol false o = true ->
             is_candidate dec tol true o = true).
Proof.
  split.
  - intros o e r Hf He Hr. apply find_best_in_candidates in Hf.
    unfold candidates_of in Hf. apply filter_In in Hf as [_ Hc].
    unfold is_candidate in Hc.
    destruct (action_to_order_filters (DecisionOp.action dec)) as [[side pos] red].
    cbn [fst snd] in He. subst red. rewrite Hr in Hc.
    destruct (bool_decide (r = e)) eqn:E; [by apply bool_decide_eq_true in E|].
    rewrite (bool_decide_eq_true_2 (Some e <> None)) in Hc by done.
    rewrite (bool_decide_eq_true_2 (Some r <> None)) in Hc by done.
    rewrite (bool_decide_eq_false_2 (Some r = Some e)) in Hc
      by (apply bool_decide_eq_false in E; congruence).
    cbn [negb andb] in Hc. cbn beta iota in Hc.
    case_ifs_in Hc.
  - intros o. unfold is_candidate.
    destruct (action_to_order_filters (DecisionOp.action dec)) as [[side pos] red].
    rewrite !andb_false_r. cbn beta iota.
    case_ifs.
Qed.

Lemma find_best_reduce_only_enforced_witness :
  find_best_order_match (eth_decision T0 None)
    [eth_reduce_only_order 43 T0; eth_order 41 (T0 - 60000000) "FILLED"] 180 false
  = Some (eth_order 41 (T0 - 60000000) "FILLED")
  /\ is_candidate (eth_decision T0 None) 180 true
       (eth_order 41 (T0 - 60000000) "FILLED") = true.
Proof.
  split; [reflexivity|].
  apply (proj2 (find_best_reduce_only_enforced (eth_decision T0 None)
                  [eth_reduce_only_order 43 T0] 180)).
  reflexivity.
Defined.

(** ** [order_by_id] and the two-step match *)

Lemma order_by_id_some (orders : list OrderRow.t) (i : Z) (o : OrderRow.t) :
  order_by_id orders !! i = Some o -> In o orders /\ OrderRow.order_id o = i.
Proof.
  intros Ho. rewrite order_by_id_lookup in Ho.
  apply find_some in Ho as [Hin Hp]. split; [by apply in_rev|].
  unfold has_id in Hp. by apply bool_decide_eq_true in Hp.
Qed.

(** X13. Looking an identifier up in [order_by_id] returns a ledger row
    that carries this identifier, and returns nothing exactly when no
    ledger row carries it. *)
Theorem order_by_id_sound (orders : list OrderRow.t) (i : Z) :
  (forall o, order_by_id orders !! i = Some o ->
             In o orders /\ OrderRow.order_id o = i) /\
  (order_by_id orders !! i = None <->
     forall o, In o orders -> OrderRow.order_id o <> i).
Proof.
  split.
  - apply order_by_id_some.
  - split; [|apply order_by_id_absent].
    intros Hn o Hin Hid.
    destruct (order_by_id_present orders i) as (row & Hrow & _); [by exists o|].
    congruence.
Qed.

Lemma order_by_id_sound_witness :
  In (eth_order 41 (T0 - 60000000) "FILLED") sample_ledger /\
  OrderRow.order_id (eth_order 41 (T0 - 60000000) "FILLED") = 41.
Proof.
  apply (proj1 (order_by_id_sound sample_ledger 41)). reflexivity.
Defined.

(** X14. The outcome of matching one decision is one of three: a ledger
    row with the decision's non-zero order id and method [order_id]; in
    lenient mode only, a ledger row that passes the time-window tests, with
    method [time_window]; or no row and an empty method. *)
Theorem match_decision_outcomes (strict : bool) (orders : list OrderRow.t)
    (tol : Z) (d : DecisionOp.t) :
  (exists o, match_decision strict orders tol d = (Some o, "order_id") /\
             In o orders /\ DecisionOp.order_id d = Some (OrderRow.order_id o) /\
             OrderRow.order_id o <> 0) \/
  (exists o, strict = false /\
             match_decision strict orders tol d = (Some o, "time_window") /\
             In o orders /\ is_candidate d tol true o = true) \/
  match_decision strict orders tol d = (None, EmptyString).
Proof.
  unfold match_decision.
  assert (Hfb : strict = false ->
    (exists o, strict = false /\
       (find_best_order_match d orders tol (negb strict),
        match find_best_order_match d orders tol (negb strict) with
        | Some _ => "time_window" | None => EmptyString end)
       = (Some o, "time_window") /\ In o orders /\ is_candidate d tol true o = true)
    \/ (find_best_order_match d orders tol (negb strict),
        match find_best_order_match d orders tol (negb strict) with
        | Some _ => "time_window" | None => EmptyString end)
       = (None, EmptyString)).
  { intros ->. cbn [negb].
    destruct (find_best_order_match d orders tol true) as [o|] eqn:E; [|by right].
    left. exists o. apply find_best_in_candidates in E.
    unfold candidates_of in E. by apply filter_In in E as [Hin Hc]. }
  destruct (DecisionOp.order_id d) as [i|] eqn:Hd.
  - destruct (Z.eqb_spec i 0) as [->|Hnz]; cbn [negb].
    + destruct strict; cbn [negb]; [by right; right | right; by apply Hfb].
    + destruct (order_by_id orders !! i) as [row|] eqn:El.
      * left. exists row.
        apply order_by_id_some in El as [Hin Hid].
        subst i. done.
      * destruct strict; cbn [negb]; [by right; right | right; by apply Hfb].
  - destruct strict; cbn [negb]; [by right; right | right; by apply Hfb].
Qed.

Lemma match_strict_lenient (orders : list OrderRow.t) (tol : Z)
    (d : DecisionOp.t) (o : OrderRow.t) (m : string) :
  match_decision true orders tol d = (Some o, m) ->
  match_decision false orders tol d = (Some o, m).
Proof.
  unfold match_decision.
  destruct (DecisionOp.order_id d) as [i|]; [|done].
  destruct (negb (i =? 0)); [|done].
  by destruct (order_by_id orders !! i).
Qed.

Lemma validate_strict_lenient (price_tol qty_tol : Q) (d : DecisionOp.t)
    (o : OrderRow.t) :
  (validate true price_tol qty_tol d o).2 = true ->
  (validate false price_tol qty_tol d o).2 = true.
Proof.
  unfold validate. cbn [snd].
  destruct (within_pct (DecisionOp.price d) _ _) as [[|]|]; cbn; try done.
  unfold strict_enforce.
  destruct (action_to_order_filters (DecisionOp.action d)) as [[side pos] red].
  destruct (within_pct (DecisionOp.qty d) _ _) as [[|]|]; try done; case_ifs.
Qed.

(** X15. Strict mode is the stricter of the two for every decision: a row
    matched in strict mode is the row matched in lenient mode, by the same
    method, and a decision that passes validation against a row in strict
    mode passes it in lenient mode. *)
Theorem strict_implies_lenient (orders : list OrderRow.t) (tol : Z)
    (price_tol qty_tol : Q) (d : DecisionOp.t) :
  (forall o m, match_decision true orders tol d = (Some o, m) ->
               match_decision false orders tol d = (Some o, m)) /\
  (forall o, (validate true price_tol qty_tol d o).2 = true ->
             (validate false price_tol qty_tol d o).2 = true).
Proof.
  split.
  - intros o m. apply match_strict_lenient.
  - intros o. apply validate_strict_lenient.
Qed.

Lemma strict_implies_lenient_witness :
  match_decision false [eth_order 42 T0 "FILLED"] 180 (eth_decision T0 (Some 42))
  = (Some (eth_order 42 T0 "FILLED"), "order_id")
  /\ (validate false (5 # 10) 1 (eth_decision T0 (Some 42))
        (eth_order 42 T0 "FILLED")).2 = true.
Proof.
  destruct (strict_implies_lenient [eth_order 42 T0 "FILLED"] 180 (5 # 10) 1
              (eth_decision T0 (Some 42))) as [Hm Hv].
  split; [apply Hm | apply Hv]; reflexivity.
Defined.

(** ** [load_orders]: where rows come from *)

Lemma load_orders_omap (py : Builtins) (data : list json) :
  load_orders py data = omap (load_one py) data.
Proof.
  induction data as [|o data IH]; cbn; [done|].
  destruct (load_one py o); by rewrite IH.
Qed.

(** X16. The loader returns at most one row per record, in the order of
    the records; every row comes from a dict record of the batch whose
    [orderId] converted to the row's identifier, and a record is kept
    exactly when its [orderId] and its time field both convert. *)
Theorem load_orders_rows (py : Builtins) (data : list json) :
  (length (load_orders py data) <= length data)%nat /\
  (forall row, In row (load_orders py data) <->
     exists kvs, In (JObj kvs) data /\ load_one py (JObj kvs) = Some row) /\
  (forall kvs,
     is_Some (load_one py (JObj kvs)) <->
     is_Some (py_int py (dict_get kvs "orderId")) /\ is_Some (time_ms_of py kvs)) /\
  (forall kvs row, load_one py (JObj kvs) = Some row ->
     py_int py (dict_get kvs "orderId") = Some (OrderRow.order_id row)).
Proof.
  rewrite load_orders_omap. split; [apply omap_length_le|]. split; [|split].
  - intros row. rewrite <- list_elem_of_In, list_elem_of_omap. split.
    + intros (o & Hin & Ho). destruct o as [| | | | | |kvs]; try done.
      exists kvs. by rewrite <- list_elem_of_In.
    + intros (kvs & Hin & Ho). exists (JObj kvs). by rewrite list_elem_of_In.
  - intros kvs. cbn.
    destruct (py_int py (dict_get kvs "orderId")) as [i|]; cbn.
    + destruct (time_ms_of py kvs); cbn; split; intros H;
        try (split; by eauto); try by eauto.
      * by destruct H as [_ [? ?]].
    + split; [by intros [? ?] | by intros [[? ?] _]].
  - intros kvs row. cbn.
    destruct (py_int py (dict_get kvs "orderId")) as [i|]; cbn; [|done].
    destruct (time_ms_of py kvs); cbn; [|done]. by intros [= <-].
Qed.

Lemma load_orders_rows_witness :
  exists kvs, In (JObj kvs) [JNull; raw_good; raw_bad_id] /\
    load_one sample_py (JObj kvs)
    = Some (OrderRow.mk 1762782649000000 42 "ETHUSDT" "BUY" (Some "LONG")
              (Some false) "FILLED" "MARKET" (Some (2000 # 1)) (Some (inject_Z 1))).
Proof.
  apply (proj1 (proj2 (load_orders_rows sample_py [JNull; raw_good; raw_bad_id]))).
  vm_compute. by left.
Defined.

(** X17. When the raw [positionSide] is a string or is missing, the row's
    position side is that string, except that the empty string and the
    missing value both become [None]: a loaded row never carries an empty
    position side. *)
Theorem load_one_position_side (py : Builtins) (kvs : list (string * json))
    (row : OrderRow.t) :
  load_one py (JObj kvs) = Some row ->
  (dict_get kvs "positionSide" = JNull -> OrderRow.position_side row = None) /\
  (forall s, dict_get kvs "positionSide" = JStr s ->
     OrderRow.position_side row
     = (if bool_decide (s = EmptyString) then None else Some s) /\
     OrderRow.position_side row <> Some EmptyString).
Proof.
  cbn. destruct (py_int py (dict_get kvs "orderId")) as [i|]; cbn; [|done].
  destruct (time_ms_of py kvs); cbn; [|done]. intros [= <-]. cbn. split.
  - by intros ->.
  - intros s ->. cbn. case_bool_decide; cbn; [done|]. split; congruence.
Qed.

Lemma load_one_position_side_witness :
  OrderRow.position_side
    (OrderRow.mk 1762782649000000 42 "ETHUSDT" "BUY" (Some "LONG")
       (Some false) "FILLED" "MARKET" (Some (2000 # 1)) (Some (inject_Z 1)))
  <> Some EmptyString.
Proof.
  apply (proj2 (load_one_position_side sample_py
                  [("orderId", JInt 42); ("symbol", JStr "ETHUSDT"); ("side", JStr "BUY");
                   ("positionSide", JStr "LONG"); ("reduceOnly", JBool false);
                   ("status", JStr "FILLED"); ("type", JStr "MARKET");
                   ("avgPrice", JStr "2000.0"); ("executedQty", JInt 1);
                   ("time", JInt 1762782649000)] _ eq_refl) "LONG" eq_refl).
Defined.

(** ** [parse_decision_ops]: invariants of the extraction *)

Lemma parse_decision_ops_from (py : Builtins) (files : list doc_file) :
  parse_decision_ops py files = parse_from py [] files.
Proof. reflexivity. Qed.

Lemma parse_fold_none (py : Builtins) (files : list doc_file) :
  foldl (fun acc f => ops ← acc; parse_document py ops f) None files = None.
Proof. induction files as [|f fs IH]; cbn; [done | exact IH]. Qed.

Lemma parse_from_cons (py : Builtins) (ops : list DecisionOp.t) (f : doc_file)
    (files : list doc_file) :
  parse_from py ops (f :: files)
  = match parse_document py ops f with
    | Some ops' => parse_from py ops' files
    | None => None
    end.
Proof.
  unfold parse_from. cbn [foldl mbind option_bind].
  destruct (parse_document py ops f); [done | apply parse_fold_none].
Qed.

Lemma parse_from_app (py : Builtins) (l1 l2 : list doc_file) :
  forall ops, parse_from py ops (l1 ++ l2)
  = match parse_from py ops l1 with
    | Some ops' => parse_from py ops' l2
    | None => None
    end.
Proof.
  induction l1 as [|f l1 IH]; intros ops; [done|].
  cbn [app]. rewrite !parse_from_cons.
  destruct (parse_document py ops f); [apply IH | done].
Qed.

Lemma decision_entry_props (py : Builtins) (ts_base : instant) (d : json)
    (e : DecisionOp.t) :
  decision_entry py ts_base d = Some e ->
  DecisionOp.success e = true /\ known_action (DecisionOp.action e) = true /\
  exists kvs, d = JObj kvs /\
    dict_get kvs "action" = JStr (DecisionOp.action e) /\
    dict_get kvs "symbol" = JStr (DecisionOp.symbol e) /\
    truthy (dict_get kvs "success") = true.
Proof.
  destruct d as [| | | | | |kvs]; try done. cbn.
  destruct (dict_get kvs "action") as [| | | |a| |] eqn:Ea; try done.
  destruct (known_action a) eqn:Ek; cbn; [|done].
  destruct (dict_get kvs "symbol") as [| | | |s| |] eqn:Es; try done.
  destruct (dict_mem kvs "success"); [|done].
  destruct (truthy (dict_get kvs "success")) eqn:Et; [|done].
  intros [= <-]. cbn. repeat split; try done. by exists kvs.
Qed.

Lemma fallback_fold_invariant (py : Builtins) (P : DecisionOp.t -> Prop)
    (ts_base : instant) (lines : list json) :
  (forall s sym a, exec_log_search py s = Some (sym, a) ->
                   P (fallback_event ts_base sym a)) ->
  forall ops, Forall P ops ->
  Forall P (foldl (fallback_line py ts_base) ops lines).
Proof.
  intros Hre. induction lines as [|l ls IH]; intros ops Hops; [done|].
  cbn [foldl]. apply IH. unfold fallback_line.
  destruct l as [| | | |s| |]; try done.
  destruct (exec_log_search py s) as [[sym a]|] eqn:E; [|done].
  destruct (already_reported ts_base sym a ops); [done|].
  apply Forall_app. split; [done|]. apply Forall_cons. split; [|done].
  by eapply Hre.
Qed.

Lemma parse_document_inv (py : Builtins) (ops ops' : list DecisionOp.t)
    (f : doc_file) :
  parse_document py ops f = Some ops' ->
  ops' = ops \/
  exists data ds lines,
    doc_json f = Some data /\
    ops' = foldl (fallback_line py (base_timestamp py data (doc_mtime f)))
             (ops ++ omap (decision_entry py (base_timestamp py data (doc_mtime f))) ds)
             lines.
Proof.
  unfold parse_document. destruct (doc_json f) as [data|]; [|by intros [= <-]; left].
  destruct (negb (truthy data)); [by intros [= <-]; left|].
  destruct (py_get data "decisions") as [dv|]; [|done]. cbn.
  destruct (py_iter py (py_or dv (JArr []))) as [ds|]; [|done]. cbn.
  destruct (py_get data "execution_log") as [lv|]; [|done]. cbn.
  destruct (py_iter py (py_or lv (JArr []))) as [lines|]; [|done]. cbn.
  intros [= <-]. right. by exists data, ds, lines.
Qed.

(** X18. Every event the extractor returns has [success] true; an event
    of the structured pass has one of the four actions, and so has every
    event as soon as the second group of the log pattern is one of them. *)
Theorem parse_decision_ops_success (py : Builtins) (files : list doc_file)
    (ops : list DecisionOp.t) :
  parse_decision_ops py files = Some ops ->
  Forall (fun e => DecisionOp.success e = true) ops /\
  ((forall s sym a, exec_log_search py s = Some (sym, a) -> known_action a = true) ->
   Forall (fun e => known_action (DecisionOp.action e) = true) ops).
Proof.
  intros Hp.
  assert (Hgen : forall P : DecisionOp.t -> Prop,
            (forall tb d e, decision_entry py tb d = Some e -> P e) ->
            (forall tb s sym a, exec_log_search py s = Some (sym, a) ->
                                P (fallback_event tb sym a)) ->
            Forall P ops).
  { intros P Hd Hl. rewrite parse_decision_ops_from in Hp.
    assert (Hstart : Forall P []) by done.
    revert Hp Hstart. generalize (@nil DecisionOp.t) as ops0.
    induction files as [|f fs IH]; intros ops0 Hp Hops0.
    - by injection Hp as <-.
    - rewrite parse_from_cons in Hp.
      destruct (parse_document py ops0 f) as [ops1|] eqn:E; [|done].
      apply (IH ops1 Hp).
      destruct (parse_document_inv _ _ _ _ E) as [->|(data & ds & lines & _ & ->)];
        [done|].
      apply fallback_fold_invariant; [by intros; eapply Hl|].
      apply Forall_app. split; [done|].
      apply Forall_forall. intros e He.
      apply list_elem_of_omap in He as (d & _ & Hd'). by eapply Hd. }
  split.
  - apply Hgen; [|done]. intros tb d e He. by apply decision_entry_props in He as [? _].
  - intros Hre. apply Hgen.
    + intros tb d e He. by apply decision_entry_props in He as (_ & ? & _).
    + intros tb s sym a Hs. by eapply Hre.
Qed.

Lemma parse_decision_ops_success_witness :
  Forall (fun e => DecisionOp.success e = true)
    [DecisionOp.mk T0 "BTCUSDT" "open_long"
       (Some (inject_Z 100000)) (Some (inject_Z 1)) (Some 42) true].
Proof.
  apply (proj1 (parse_decision_ops_success sample_py [doc_both] _ eq_refl)).
Defined.

Lemma fallback_fold_extends (py : Builtins) (ts_base : instant)
    (lines : list json) : forall acc,
  exists added, foldl (fallback_line py ts_base) acc lines = acc ++ added.
Proof.
  induction lines as [|l ls IH]; intros acc.
  - exists []. by rewrite app_nil_r.
  - cbn [foldl]. destruct (IH (fallback_line py ts_base acc l)) as (a & ->).
    unfold fallback_line. destruct l as [| | | |s| |]; try (by exists a).
    destruct (exec_log_search py s) as [[sym act]|]; [|by exists a].
    destruct (already_reported ts_base sym act acc); [by exists a|].
    rewrite <- app_assoc. by eexists.
Qed.

Lemma parse_document_extends (py : Builtins) (ops ops' : list DecisionOp.t)
    (f : doc_file) :
  parse_document py ops f = Some ops' -> exists added, ops' = ops ++ added.
Proof.
  intros E.
  destruct (parse_document_inv _ _ _ _ E) as [->|(data & ds & lines & _ & ->)].
  - exists []. by rewrite app_nil_r.
  - destruct (fallback_fold_extends py (base_timestamp py data (doc_mtime f)) lines
                (ops ++ omap (decision_entry py
                                (base_timestamp py data (doc_mtime f))) ds))
      as (a & ->).
    rewrite <- app_assoc. by eexists.
Qed.

Lemma parse_from_extends (py : Builtins) (files : list doc_file) :
  forall ops0 ops, parse_from py ops0 files = Some ops ->
                   exists added, ops = ops0 ++ added.
Proof.
  induction files as [|f fs IH]; intros ops0 ops Hp.
  - injection Hp as <-. exists []. by rewrite app_nil_r.
  - rewrite parse_from_cons in Hp.
    destruct (parse_document py ops0 f) as [ops'|] eqn:E; [|done].
    destruct (IH ops' ops Hp) as (added & ->).
    destruct (parse_document_extends _ _ _ _ E) as (a & ->).
    exists (a ++ added). by rewrite app_assoc.
Qed.

(** X19. Documents only add events: the events collected from the first
    documents are a prefix, unchanged and in the same order, of the events
    collected from a longer list of documents. *)
Theorem parse_decision_ops_prefix (py : Builtins) (l1 l2 : list doc_file)
    (ops : list DecisionOp.t) :
  parse_decision_ops py (l1 ++ l2) = Some ops ->
  exists ops1 added,
    parse_decision_ops py l1 = Some ops1 /\ ops = ops1 ++ added.
Proof.
  rewrite !parse_decision_ops_from, parse_from_app.
  destruct (parse_from py [] l1) as [ops1|]; [|done].
  intros Hp. exists ops1.
  destruct (parse_from_extends _ _ _ _ Hp) as (added & ->). by exists added.
Qed.

Lemma parse_decision_ops_prefix_witness :
  exists ops1 added,
    parse_decision_ops sample_py [doc_both] = Some ops1 /\
    [DecisionOp.mk T0 "BTCUSDT" "open_long"
       (Some (inject_Z 100000)) (Some (inject_Z 1)) (Some 42) true]
    = ops1 ++ added.
Proof.
  apply (parse_decision_ops_prefix sample_py [doc_both] [doc_twice]).
  reflexivity.
Defined.

(** X20. A document that could not be loaded, or whose content is empty
    (an empty object or list, [null], zero), contributes nothing: the
    result is that of the other documents. *)
Theorem parse_decision_ops_skips (py : Builtins) (pre post : list doc_file)
    (f : doc_file) :
  (doc_json f = None \/ exists data, doc_json f = Some data /\ truthy data = false) ->
  parse_decision_ops py (pre ++ f :: post) = parse_decision_ops py (pre ++ post).
Proof.
  intros Hf. rewrite !parse_decision_ops_from, !parse_from_app.
  destruct (parse_from py [] pre) as [ops|]; [|done].
  rewrite parse_from_cons.
  assert (Hskip : parse_document py ops f = Some ops).
  { unfold parse_document. destruct Hf as [->|(data & -> & ->)]; done. }
  by rewrite Hskip.
Qed.

Lemma parse_decision_ops_skips_witness :
  parse_decision_ops sample_py
    ([doc_both] ++ {| doc_json := Some (JObj []); doc_mtime := T0 |} :: [doc_twice])
  = parse_decision_ops sample_py ([doc_both] ++ [doc_twice]).
Proof.
  apply (parse_decision_ops_skips sample_py [doc_both] [doc_twice]).
  right. by eexists.
Defined.

(** X21. A document whose top-level value is not an object and is not
    empty (a non-empty list or string, a non-zero number, [true]) makes the
    whole extraction fail, whatever the other documents are; so does an
    object whose [decisions] is a non-zero number or [true]. *)
Theorem parse_decision_ops_fatal (py : Builtins) (pre post : list doc_file)
    (f : doc_file) (data : json) :
  doc_json f = Some data ->
  truthy data = true ->
  ((forall kvs, data <> JObj kvs) \/
   exists kvs, data = JObj kvs /\ truthy (dict_get kvs "decisions") = true /\
               py_iter py (dict_get kvs "decisions") = None) ->
  parse_decision_ops py (pre ++ f :: post) = None.
Proof.
  intros Hf Ht Hbad. rewrite parse_decision_ops_from, parse_from_app.
  destruct (parse_from py [] pre) as [ops|]; [|done].
  rewrite parse_from_cons.
  assert (Hcrash : parse_document py ops f = None).
  { unfold parse_document. rewrite Hf, Ht. cbn [negb].
    destruct Hbad as [Hno|(kvs & -> & Htd & Hit)].
    - destruct data as [| | | | | |kvs]; try done. by destruct (Hno kvs).
    - cbn [py_get mbind option_bind]. unfold py_or. by rewrite Htd, Hit. }
  by rewrite Hcrash.
Qed.

Lemma parse_decision_ops_fatal_witness :
  parse_decision_ops sample_py
    ([doc_both] ++ {| doc_json := Some (JArr [JInt 1]); doc_mtime := T0 |} :: [])
  = None
  /\ parse_decision_ops sample_py
       ([] ++ {| doc_json := Some (JObj [("decisions", JInt 5)]); doc_mtime := T0 |}
           :: [doc_both])
     = None.
Proof.
  split.
  - apply (parse_decision_ops_fatal sample_py [doc_both] []
             {| doc_json := Some (JArr [JInt 1]); doc_mtime := T0 |} (JArr [JInt 1]));
      [reflexivity | reflexivity | left; discriminate].
  - apply (parse_decision_ops_fatal sample_py [] [doc_both]
             {| doc_json := Some (JObj [("decisions", JInt 5)]); doc_mtime := T0 |}
             (JObj [("decisions", JInt 5)]));
      [reflexivity | reflexivity |].
    right. eexists. repeat split; reflexivity.
Defined.

(** X22. Within one document the free-text pass adds at most one event
    per (symbol, action) pair, and none for a pair already reported less
    than 600 s from the base timestamp; each event it adds carries the
    base timestamp and no price, quantity or order id. *)
Theorem fallback_pass_distinct (py : Builtins) (ts_base : instant)
    (lines : list json) (ops : list DecisionOp.t) :
  exists added,
    foldl (fallback_line py ts_base) ops lines = ops ++ added /\
    distinct_actions added /\
    Forall (fun e =>
              e = fallback_event ts_base (DecisionOp.symbol e) (DecisionOp.action e) /\
              ~ reported_near ts_base (DecisionOp.symbol e) (DecisionOp.action e) ops)
           added.
Proof.
  revert ops. induction lines as [|l ls IH] using rev_ind; intros ops.
  - exists []. cbn. rewrite app_nil_r. repeat split; [constructor | done].
  - rewrite foldl_app. cbn [foldl].
    destruct (IH ops) as (added & -> & Hnd & Hall).
    unfold fallback_line at 1. destruct l as [| | | |s| |]; try (by exists added).
    destruct (exec_log_search py s) as [[sym act]|]; [|by exists added].
    destruct (already_reported ts_base sym act (ops ++ added)) eqn:E;
      [by exists added|].
    exists (added ++ [fallback_event ts_base sym act]).
    rewrite app_assoc. split; [done|].
    assert (Hnot : ~ reported_near ts_base sym act (ops ++ added)).
    { intros H. apply already_reported_iff in H. congruence. }
    split.
    + unfold distinct_actions in *. rewrite map_app. cbn.
      apply NoDup_app. split; [done|]. split; [|apply NoDup_singleton].
      intros p Hp Hp'. apply list_elem_of_singleton in Hp'. subst p.
      apply list_elem_of_fmap in Hp as (e & Heq & He).
      injection Heq as Hs Ha.
      apply list_elem_of_In in He.
      apply Hnot. exists e. split; [apply in_or_app; by right|].
      split; [done|]. split; [done|].
      rewrite Forall_forall in Hall.
      destruct (Hall e (proj2 (list_elem_of_In _ _) He)) as [-> _].
      unfold abs_diff. cbn. rewrite Z.sub_diag. cbn. lia.
    + apply Forall_app. split; [done|]. apply Forall_cons. split; [|done].
      cbn. split; [done|]. intros (o & Hin & Ho). apply Hnot.
      exists o. split; [apply in_or_app; by left | done].
Qed.

Lemma fallback_pass_distinct_witness :
  exists added,
    foldl (fallback_line sample_py T0) [] [JStr sample_line; JStr sample_line]
    = [] ++ added /\
    distinct_actions added /\
    Forall (fun e =>
              e = fallback_event T0 (DecisionOp.symbol e) (DecisionOp.action e) /\
              ~ reported_near T0 (DecisionOp.symbol e) (DecisionOp.action e) [])
           added.
Proof.
  apply (fallback_pass_distinct sample_py T0 [JStr sample_line; JStr sample_line] []).
Defined.

(** ** [main]: the time filter *)

(** X23. The time filter keeps, in their order, exactly the decisions
    whose timestamp is not before [from] and not after [to], each bound
    applying only when it is given and both bounds belonging to the range;
    without bounds nothing is removed, and filtering twice is filtering
    once. *)
Theorem filter_decisions_spec (t_from t_to : option instant)
    (decisions : list DecisionOp.t) :
  (forall d, In d (filter_decisions t_from t_to decisions) <->
     In d decisions /\
     (forall f, t_from = Some f -> f <= DecisionOp.ts d) /\
     (forall t, t_to = Some t -> DecisionOp.ts d <= t)) /\
  filter_decisions t_from t_to decisions
  = List.filter (fun d => negb (skipped_by_filter t_from t_to d)) decisions /\
  filter_decisions None None decisions = decisions /\
  filter_decisions t_from t_to (filter_decisions t_from t_to decisions)
  = filter_decisions t_from t_to decisions.
Proof.
  assert (Heq : forall l, filter_decisions t_from t_to l
            = List.filter (fun d => negb (skipped_by_filter t_from t_to d)) l).
  { intros l. unfold filter_decisions. destruct t_from, t_to; try done.
    induction l as [|d l IH]; [done|].
    change (d :: l = d :: List.filter
              (fun d => negb (skipped_by_filter None None d)) l).
    by f_equal. }
  split; [|split; [apply Heq | split; [done|]]].
  - intros d. rewrite Heq, filter_In. unfold skipped_by_filter.
    split.
    + intros [Hin Hk]. split; [done|].
      destruct t_from as [f|], t_to as [t|]; cbn in Hk.
      * destruct (Z.ltb_spec (DecisionOp.ts d) f); [done|].
        rewrite Z.gtb_ltb in Hk.
        destruct (Z.ltb_spec t (DecisionOp.ts d)); [done|].
        split; intros ? [= <-]; lia.
      * destruct (Z.ltb_spec (DecisionOp.ts d) f); [done|].
        split; [intros ? [= <-]; lia | done].
      * rewrite Z.gtb_ltb in Hk.
        destruct (Z.ltb_spec t (DecisionOp.ts d)); [done|].
        split; [done | intros ? [= <-]; lia].
      * done.
    + intros (Hin & Hf & Ht). split; [done|].
      destruct t_from as [f|], t_to as [t|]; cbn.
      * specialize (Hf f eq_refl). specialize (Ht t eq_refl).
        destruct (Z.ltb_spec (DecisionOp.ts d) f); [lia|].
        rewrite Z.gtb_ltb. by destruct (Z.ltb_spec t (DecisionOp.ts d)); [lia|].
      * specialize (Hf f eq_refl).
        by destruct (Z.ltb_spec (DecisionOp.ts d) f); [lia|].
      * specialize (Ht t eq_refl).
        rewrite Z.gtb_ltb. by destruct (Z.ltb_spec t (DecisionOp.ts d)); [lia|].
      * done.
  - rewrite !Heq. induction decisions as [|d l IH]; cbn; [done|].
    destruct (negb (skipped_by_filter t_from t_to d)) eqn:E; cbn; [|done].
    by rewrite E, IH.
Qed.

Lemma filter_decisions_spec_witness :
  In (eth_decision T0 None)
     (filter_decisions (Some T0) (Some T0)
        [eth_decision (T0 - 1) None; eth_decision T0 None; eth_decision (T0 + 1) None]).
Proof.
  apply (proj1 (filter_decisions_spec (Some T0) (Some T0)
                  [eth_decision (T0 - 1) None; eth_decision T0 None;
                   eth_decision (T0 + 1) None])).
  split; [right; by left|]. split; intros ? [= <-]; cbn; lia.
Defined.

(** ** [main]: counters and report rows *)

Section ReportFacts.

Variable fm : Formatting.
Variables (strict : bool) (orders : list OrderRow.t) (tol : Z) (pt qt : Q).

Lemma main_loop_snoc (l : list DecisionOp.t) (d : DecisionOp.t) :
  main_loop fm strict orders tol pt qt (l ++ [d])
  = main_step fm strict orders tol pt qt (main_loop fm strict orders tol pt qt l) d.
Proof. unfold main_loop. by rewrite foldl_app. Qed.

Lemma main_step_counts (st : run) (d : DecisionOp.t) :
  let st' := main_step fm strict orders tol pt qt st d in
  total st' = total st + 1 /\
  (matched st' = matched st \/ matched st' = matched st + 1) /\
  (pass_cnt st' = pass_cnt st /\
     length (fail_rows st') = S (length (fail_rows st))
   \/ pass_cnt st' = pass_cnt st + 1 /\ matched st' = matched st + 1 /\
      fail_rows st' = fail_rows st) /\
  exists row, csv_rows st' = csv_rows st ++ [row] /\ length row = 18%nat.
Proof.
  cbv zeta. unfold main_step.
  destruct (match_decision strict orders tol d) as [[o|] m].
  - destruct (validate strict pt qt d o) as [[p q] passed]. cbn.
    split; [done|]. split; [by right|]. split.
    + destruct passed; [right; done | left].
      split; [done|]. rewrite length_app. cbn. lia.
    + by eexists.
  - cbn. split; [done|]. split; [by left|]. split.
    + left. split; [done|]. rewrite length_app. cbn. lia.
    + by eexists.
Qed.

(** X24. After the loop of [main]: [total] is the number of decisions;
    [pass_cnt] is at most [matched], which is at most [total]; the number
    of failure rows is [total - pass_cnt], the figure the summary prints;
    the summary lists the first 100 of them; and the CSV holds the header
    and one row per decision. *)
Theorem main_loop_counters (decisions : list DecisionOp.t) :
  let st := main_loop fm strict orders tol pt qt decisions in
  total st = Z.of_nat (length decisions) /\
  0 <= pass_cnt st <= matched st /\ matched st <= total st /\
  Z.of_nat (length (fail_rows st)) = summary_failed st /\
  length (summary_listed st) = Nat.min 100 (length (fail_rows st)) /\
  length (csv_rows st) = S (length decisions).
Proof.
  cbv zeta. unfold summary_listed, summary_failed. rewrite length_take.
  induction decisions as [|d l IH] using rev_ind.
  - cbn. repeat split; lia.
  - rewrite main_loop_snoc.
    destruct IH as (Ht & Hp & Hm & Hf & _ & Hc).
    destruct (main_step_counts (main_loop fm strict orders tol pt qt l) d)
      as (Ht' & Hm' & Hp' & (row & Hrow & _)).
    rewrite Hrow, !length_app, Ht', Ht. cbn [length].
    unfold summary_failed in Hf.
    set (s := main_loop fm strict orders tol pt qt l) in *.
    set (s' := main_step fm strict orders tol pt qt s d) in *.
    destruct Hp' as [[Hp1 Hp2]|(Hp1 & Hp2 & Hp3)]; rewrite ?Hp3;
      destruct Hm' as [Hm1|Hm1]; repeat split; lia.
Qed.

(** X25. Every row of the CSV, header included, has 18 cells. *)
Theorem csv_rows_rectangular (decisions : list DecisionOp.t) :
  Forall (fun row => length row = 18%nat)
    (csv_rows (main_loop fm strict orders tol pt qt decisions)).
Proof.
  induction decisions as [|d l IH] using rev_ind.
  - cbn. by constructor.
  - rewrite main_loop_snoc.
    destruct (main_step_counts (main_loop fm strict orders tol pt qt l) d)
      as (_ & _ & _ & (row & -> & Hlen)).
    apply Forall_app. split; [done|]. by constructor.
Qed.

Lemma main_step_from (st : run) (d : DecisionOp.t) :
  let one := main_step fm strict orders tol pt qt run_start d in
  let st' := main_step fm strict orders tol pt qt st d in
  total st' = total st + total one /\
  matched st' = matched st + matched one /\
  pass_cnt st' = pass_cnt st + pass_cnt one /\
  fail_rows st' = fail_rows st ++ fail_rows one /\
  csv_rows st' = csv_rows st ++ tail (csv_rows one).
Proof.
  cbv zeta. unfold main_step.
  destruct (match_decision strict orders tol d) as [[o|] m].
  - destruct (validate strict pt qt d o) as [[p q] passed]. cbn.
    destruct passed; rewrite ?app_nil_r; repeat split; lia.
  - cbn. repeat split; lia.
Qed.

Lemma csv_rows_nonempty (l : list DecisionOp.t) :
  csv_rows (main_loop fm strict orders tol pt qt l) <> [].
Proof.
  destruct l as [|d l] using rev_ind; [done|].
  rewrite main_loop_snoc.
  destruct (main_step_counts (main_loop fm strict orders tol pt qt l) d)
    as (_ & _ & _ & (row & -> & _)).
  by destruct (csv_rows _).
Qed.

(** X26. Decisions are judged independently of one another: for two
    lists of decisions processed one after the other, the counters are the
    sums of the counters of each list, and the failure rows and the CSV
    rows (the header aside) are the concatenations. *)
Theorem main_loop_app (l1 l2 : list DecisionOp.t) :
  let st := main_loop fm strict orders tol pt qt (l1 ++ l2) in
  let st1 := main_loop fm strict orders tol pt qt l1 in
  let st2 := main_loop fm strict orders tol pt qt l2 in
  total st = total st1 + total st2 /\
  matched st = matched st1 + matched st2 /\
  pass_cnt st = pass_cnt st1 + pass_cnt st2 /\
  fail_rows st = fail_rows st1 ++ fail_rows st2 /\
  csv_rows st = csv_rows st1 ++ tail (csv_rows st2).
Proof.
  cbv zeta. induction l2 as [|d l IH] using rev_ind.
  - rewrite app_nil_r. cbn. rewrite !app_nil_r. repeat split; lia.
  - rewrite app_assoc, !main_loop_snoc.
    destruct IH as (Ht & Hm & Hp & Hf & Hc).
    destruct (main_step_from (main_loop fm strict orders tol pt qt (l1 ++ l)) d)
      as (-> & -> & -> & -> & ->).
    destruct (main_step_from (main_loop fm strict orders tol pt qt l) d)
      as (-> & -> & -> & -> & ->).
    rewrite Ht, Hm, Hp, Hf, Hc.
    assert (Htl : forall a b : list (list cell),
              a <> [] -> tail (a ++ b) = tail a ++ b)
      by (intros [|? ?] ? ?; done).
    rewrite Htl, !app_assoc.
    + repeat split; lia.
    + apply csv_rows_nonempty.
Qed.

End ReportFacts.

Lemma main_step_pass_mono (fm : Formatting) (orders : list OrderRow.t) (tol : Z)
    (pt qt : Q) (s1 s2 : run) (d : DecisionOp.t) :
  pass_cnt s1 <= pass_cnt s2 -> matched s1 <= matched s2 ->
  pass_cnt (main_step fm true orders tol pt qt s1 d)
  <= pass_cnt (main_step fm false orders tol pt qt s2 d) /\
  matched (main_step fm true orders tol pt qt s1 d)
  <= matched (main_step fm false orders tol pt qt s2 d).
Proof.
  intros Hp Hm. unfold main_step.
  destruct (match_decision true orders tol d) as [[o|] m] eqn:Es.
  - rewrite (match_strict_lenient _ _ _ _ _ Es).
    pose proof (validate_strict_lenient pt qt d o) as Hv.
    destruct (validate true pt qt d o) as [[p q] passed].
    destruct (validate false pt qt d o) as [[p' q'] passed'].
    cbn in *. destruct passed; [rewrite Hv by done; lia|].
    destruct passed'; lia.
  - destruct (match_decision false orders tol d) as [[o'|] m'].
    + destruct (validate false pt qt d o') as [[p' q'] passed'].
      cbn. destruct passed'; lia.
    + cbn. lia.
Qed.

(** X27. On the same inputs a strict run never matches more decisions and
    never passes more decisions than a lenient run. *)
Theorem strict_run_below_lenient (fm : Formatting) (orders : list OrderRow.t)
    (tol : Z) (pt qt : Q) (decisions : list DecisionOp.t) :
  pass_cnt (main_loop fm true orders tol pt qt decisions)
  <= pass_cnt (main_loop fm false orders tol pt qt decisions) /\
  matched (main_loop fm true orders tol pt qt decisions)
  <= matched (main_loop fm false orders tol pt qt decisions).
Proof.
  induction decisions as [|d l IH] using rev_ind.
  - cbn. lia.
  - rewrite !main_loop_snoc. destruct IH as [Hp Hm].
    by apply main_step_pass_mono.
Qed.
